(** * money_counter_bot: the daily ledger and the dialogue of [main.py]

    A shallow embedding of [main.py]: the per-user dictionary
    [context.user_data], the statistics routine [get_user_stats], the four
    handlers [start], [ask_for_amount], [ask_for_description] and
    [save_transaction], and the [ConversationHandler] table built in [main].

    The handlers are written in a small state-and-exception monad over a
    [world] that holds the dictionary, the trace of Bot API calls, the number
    of clock reads and the log.  The clock and the answers of the Bot API are
    given by an [environment]. *)

From Stdlib Require Import String Ascii List ZArith Lia Bool Arith DecimalString.
Import ListNotations.
Open Scope string_scope.

Set Implicit Arguments.

(** ** Numbers

    Amounts and balances are Python floats.  The program uses four
    operations on them: the literals [0] and [0.0], [+], [-], the format
    [:.2f], and the conversion [float(text)], which raises [ValueError] on a
    text that is no number ([None] here). *)

Class Number (A : Type) := {
  zero : A;
  add : A -> A -> A;
  sub : A -> A -> A;
  fmt2 : A -> string;
  float : string -> option A
}.

(** ** Dates

    [datetime.now(TZ)]: a calendar date in the fixed timezone and the rest
    of the ISO rendering (time of day and offset). *)

Record datetime := {
  year : nat;
  month : nat;
  day : nat;
  time_iso : string
}.

Definition digits (n : nat) : string := NilZero.string_of_uint (Nat.to_uint n).

Fixpoint zeros (n : nat) : string :=
  match n with
  | O => ""
  | S n' => "0" ++ zeros n'
  end.

(** [%02d], [%04d] *)
Definition pad (width n : nat) : string :=
  zeros (width - String.length (digits n)) ++ digits n.

Definition month_name (m : nat) : string :=
  nth (m - 1)
    ["January"; "February"; "March"; "April"; "May"; "June"; "July";
     "August"; "September"; "October"; "November"; "December"] "".

(** [strftime("%Y-%m-%d")] *)
Definition strftime_Ymd (d : datetime) : string :=
  pad 4 (year d) ++ "-" ++ pad 2 (month d) ++ "-" ++ pad 2 (day d).

(** [strftime("%d %B %Y")] *)
Definition strftime_dBY (d : datetime) : string :=
  pad 2 (day d) ++ " " ++ month_name (month d) ++ " " ++ pad 4 (year d).

Definition isoformat (d : datetime) : string :=
  strftime_Ymd d ++ "T" ++ time_iso d.

Definition same_day (a b : datetime) : Prop :=
  year a = year b /\ month a = month b /\ day a = day b.

(** ** Stages and callback data (lines 27-30) *)

Inductive stage := START_ROUTES | GET_AMOUNT | GET_DESCRIPTION.

Definition ADD_INCOME : string := "add_income".
Definition ADD_EXPENSE : string := "add_expense".

(** ** The data held in [user_data] *)

(** The two values of [t['type']]: ['income'] and ['expense']. *)
Inductive kind := income | expense.

Definition kind_eqb (a b : kind) : bool :=
  match a, b with
  | income, income | expense, expense => true
  | _, _ => false
  end.

Section Model.

Context {A : Type} `{Number A}.

(** A transaction dictionary.  ['type'] is set when the dictionary is
    created; the other three keys are added later and may be absent. *)
Record transaction := {
  type : kind;
  amount : option A;
  description : option string;
  date : option string
}.

(** [context.user_data]: each key is present ([Some]) or absent ([None]). *)
Record dict := {
  last_update : option string;
  balance_start_day : option A;
  balance_end_day : option A;
  transactions_today : option (list transaction);
  message_id : option Z;
  current_transaction : option transaction
}.

Definition empty_dict : dict :=
  {| last_update := None; balance_start_day := None; balance_end_day := None;
     transactions_today := None; message_id := None;
     current_transaction := None |}.

Definition set_last_update (v : option string) (d : dict) : dict :=
  {| last_update := v; balance_start_day := balance_start_day d;
     balance_end_day := balance_end_day d;
     transactions_today := transactions_today d;
     message_id := message_id d;
     current_transaction := current_transaction d |}.

Definition set_balance_start_day (v : option A) (d : dict) : dict :=
  {| last_update := last_update d; balance_start_day := v;
     balance_end_day := balance_end_day d;
     transactions_today := transactions_today d;
     message_id := message_id d;
     current_transaction := current_transaction d |}.

Definition set_balance_end_day (v : option A) (d : dict) : dict :=
  {| last_update := last_update d; balance_start_day := balance_start_day d;
     balance_end_day := v;
     transactions_today := transactions_today d;
     message_id := message_id d;
     current_transaction := current_transaction d |}.

Definition set_transactions_today (v : option (list transaction)) (d : dict)
  : dict :=
  {| last_update := last_update d; balance_start_day := balance_start_day d;
     balance_end_day := balance_end_day d;
     transactions_today := v;
     message_id := message_id d;
     current_transaction := current_transaction d |}.

Definition set_message_id (v : option Z) (d : dict) : dict :=
  {| last_update := last_update d; balance_start_day := balance_start_day d;
     balance_end_day := balance_end_day d;
     transactions_today := transactions_today d;
     message_id := v;
     current_transaction := current_transaction d |}.

Definition set_current_transaction (v : option transaction) (d : dict) : dict :=
  {| last_update := last_update d; balance_start_day := balance_start_day d;
     balance_end_day := balance_end_day d;
     transactions_today := transactions_today d;
     message_id := message_id d;
     current_transaction := v |}.

(** [d.get(key, default)] *)
Definition get_or {X : Type} (o : option X) (default : X) : X :=
  match o with
  | Some x => x
  | None => default
  end.

(** The dictionary returned by [get_user_stats] (lines 53-60). *)
Record stats := {
  st_date : string;
  balance_start : A;
  total_income : A;
  total_expense : A;
  balance_end : A;
  transactions : list transaction
}.

(** ** The Bot API *)

Definition button : Type := string * string.   (* label, callback_data *)
Definition markup : Type := list (list button).

Inductive call :=
| query_answer
| query_edit_message_text (text : string) (reply_markup : option markup)
| reply_html (text : string) (reply_markup : option markup)
| reply_text (text : string)
| bot_send_message (text : string) (reply_markup : option markup)
| bot_edit_message_text (id : Z) (text : string) (reply_markup : option markup)
| bot_delete_message (id : Z).

(** What the Bot API answers to a call: the message it made or touched, or
    an error. *)
Inductive reply := Done (id : Z) | Failed (error : string).

Record environment := {
  clock : nat -> datetime;       (* the n-th read of [datetime.now(TZ)] *)
  transport : nat -> reply;      (* the answer to the n-th Bot API call *)
  mention_html : string          (* [update.effective_user.mention_html()] *)
}.

(** An incoming update, as the handlers look at it: [update.callback_query]
    (its [data]) and [update.message] (its [text]).  The [MockUpdate] of
    [save_transaction] has neither. *)
Record update := {
  callback_query : option string;
  message : option string
}.

Definition MockUpdate : update := {| callback_query := None; message := None |}.

(** ** The monad of the handlers *)

Inductive exn :=
| KeyError (key : string)
| AttributeError (attr : string)
| TelegramError (msg : string).

Inductive result (X : Type) :=
| Ok (x : X)
| Raise (e : exn).
Arguments Raise {X} e.

Record world := {
  user_data : dict;
  calls : list call;     (* Bot API calls so far, oldest first *)
  reads : nat;           (* clock reads so far *)
  log : list string      (* [logger.info] lines, oldest first *)
}.

Definition with_user_data (d : dict) (w : world) : world :=
  {| user_data := d; calls := calls w; reads := reads w; log := log w |}.

Definition M (X : Type) : Type := world -> result X * world.

Definition ret {X} (x : X) : M X := fun w => (Ok x, w).

Definition bind {X Y} (m : M X) (k : X -> M Y) : M Y :=
  fun w =>
    match m w with
    | (Ok x, w') => k x w'
    | (Raise e, w') => (Raise e, w')
    end.

Definition raise {X} (e : exn) : M X := fun w => (Raise e, w).

(** [try: m except Exception as e: h e] *)
Definition try_except {X} (m : M X) (h : exn -> M X) : M X :=
  fun w =>
    match m w with
    | (Ok x, w') => (Ok x, w')
    | (Raise e, w') => h e w'
    end.

Notation "x <- m ;; k" := (bind m (fun x => k))
  (at level 61, m at next level, right associativity).
Notation "m ;; k" := (bind m (fun _ => k))
  (at level 61, right associativity).

Definition read : M dict := fun w => (Ok (user_data w), w).

Definition modify (f : dict -> dict) : M unit :=
  fun w => (Ok tt, with_user_data (f (user_data w)) w).

Section Handlers.

Variable env : environment.

(** [datetime.now(TZ)] *)
Definition datetime_now : M datetime :=
  fun w =>
    (Ok (clock env (reads w)),
     {| user_data := user_data w; calls := calls w; reads := S (reads w);
        log := log w |}).

(** One awaited Bot API call: it is recorded, and it returns the id of the
    message or raises. *)
Definition api (c : call) : M Z :=
  fun w =>
    let w' := {| user_data := user_data w; calls := (calls w ++ [c])%list;
                 reads := reads w; log := log w |} in
    match transport env (length (calls w)) with
    | Done id => (Ok id, w')
    | Failed e => (Raise (TelegramError e), w')
    end.

Definition logger_info (line : string) : M unit :=
  fun w =>
    (Ok tt,
     {| user_data := user_data w; calls := calls w; reads := reads w;
        log := (log w ++ [line])%list |}).

(** ** [get_user_stats] (lines 32-60) *)

(** Line 37: ['last_update' not in user_data or
    user_data.get('last_update') != today_str]. *)
Definition new_day (d : dict) (today_str : string) : bool :=
  match last_update d with
  | None => true
  | Some s => negb (String.eqb s today_str)
  end.

(** Lines 46-47: [sum(t['amount'] for t in transactions if t['type'] == k)].
    [sum] starts from [0] and adds from the left; [t['amount']] raises
    [KeyError] when the key is absent. *)
Fixpoint sum_from (acc : A) (k : kind) (ts : list transaction) : result A :=
  match ts with
  | [] => Ok acc
  | t :: ts' =>
      if kind_eqb (type t) k then
        match amount t with
        | Some a => sum_from (add acc a) k ts'
        | None => Raise (KeyError "amount")
        end
      else sum_from acc k ts'
  end.

Definition sum_amounts (k : kind) (ts : list transaction) : M A :=
  fun w => (sum_from zero k ts, w).

Definition get_user_stats : M stats :=
  now <- datetime_now ;;
  let today_str := strftime_Ymd now in
  user_data0 <- read ;;
  (if new_day user_data0 today_str then
     let end_of_yesterday_balance := get_or (balance_end_day user_data0) zero in
     modify (set_balance_start_day (Some end_of_yesterday_balance)) ;;
     modify (set_transactions_today (Some [])) ;;
     modify (set_last_update (Some today_str))
   else ret tt) ;;
  user_data1 <- read ;;
  let transactions := get_or (transactions_today user_data1) [] in
  total_income <- sum_amounts income transactions ;;
  total_expense <- sum_amounts expense transactions ;;
  let balance_start := get_or (balance_start_day user_data1) zero in
  let balance_end := sub (add balance_start total_income) total_expense in
  modify (set_balance_end_day (Some balance_end)) ;;
  now' <- datetime_now ;;
  ret {| st_date := strftime_dBY now';
         balance_start := balance_start;
         total_income := total_income;
         total_expense := total_expense;
         balance_end := balance_end;
         transactions := transactions |}.

(** ** The main menu text (lines 67-82) *)

Definition nl : string := String (ascii_of_nat 10) "".

Definition header (st : stats) : string :=
  "Привет, " ++ mention_html env ++ "!" ++ nl ++ nl ++
  "📅 **Сегодня: " ++ st_date st ++ "**" ++ nl ++
  "💰 **На начало дня:** " ++ fmt2 (balance_start st) ++ nl ++
  "📈 **Доходы:** +" ++ fmt2 (total_income st) ++ nl ++
  "📉 **Расходы:** -" ++ fmt2 (total_expense st) ++ nl ++
  "🏦 **На конец дня:** " ++ fmt2 (balance_end st) ++ nl ++ nl ++
  "**Последние операции:**" ++ nl.

Definition no_operations : string := "_Пока нет операций за сегодня._" ++ nl.

Definition default_description : string := "без описания".

(** The slice [l[-5:]]. *)
Definition last5 {X : Type} (l : list X) : list X := skipn (length l - 5) l.

(** Lines 81-82: one line per shown transaction; [t['amount']] raises
    [KeyError] when the key is absent, [t.get('description', ...)] falls back
    when the key is absent. *)
Definition op_line (t : transaction) : result string :=
  let op_type := if kind_eqb (type t) income then "✅" else "🔻" in
  match amount t with
  | Some a =>
      Ok (op_type ++ " " ++ fmt2 a ++ " - "
          ++ get_or (description t) default_description ++ nl)
  | None => Raise (KeyError "amount")
  end.

(** The loop of line 80: [text += ...] for each transaction in turn. *)
Fixpoint append_lines (text : string) (ts : list transaction) : result string :=
  match ts with
  | [] => Ok text
  | t :: ts' =>
      match op_line t with
      | Ok line => append_lines (text ++ line) ts'
      | Raise e => Raise e
      end
  end.

Definition menu_text (st : stats) : result string :=
  let text := header st in
  match transactions st with
  | [] => Ok (text ++ no_operations)
  | _ :: _ => append_lines text (last5 (transactions st))
  end.

(** The text of the menu, when [menu_text] returns one. *)
Definition get_or_text (r : result string) : string :=
  match r with
  | Ok text => text
  | Raise _ => ""
  end.

Definition menu_of (st : stats) : string := get_or_text (menu_text st).

(** The line of one transaction: the marker of its kind, its amount with
    two decimals, a dash, and then the description when the key
    ['description'] is present, empty or not, or the label "без описания"
    when the key is absent. *)
Definition is_line_of (t : transaction) (line : string) : Prop :=
  exists a,
    amount t = Some a /\
    line = (match type t with income => "✅" | expense => "🔻" end)
           ++ " " ++ fmt2 a ++ " - "
           ++ (match description t with
               | Some s => s
               | None => "без описания"
               end)
           ++ nl.

Definition keyboard : markup :=
  [[("➕ Добавить доход", ADD_INCOME)];
   [("➖ Добавить расход", ADD_EXPENSE)]].

(** ** [start] (lines 62-121) *)

(** Truth value of a message id: [None] and [0] are false. *)
Definition truthy (o : option Z) : bool :=
  match o with
  | Some z => negb (Z.eqb z 0)
  | None => false
  end.

Definition is_some {X : Type} (o : option X) : bool :=
  match o with
  | Some _ => true
  | None => false
  end.

Definition lift {X : Type} (r : result X) : M X := fun w => (r, w).

(** The call that makes a new menu message. *)
Definition new_menu_call (u : update) (text : string) : call :=
  if is_some (message u)
  then reply_html text (Some keyboard)
  else bot_send_message text (Some keyboard).

(** Lines 84-121: the keyboard, and the menu sent or edited. *)
Definition deliver (u : update) (text : string) : M stage :=
  let reply_markup := Some keyboard in
  d <- read ;;
  let message_id := message_id d in
  (if is_some (callback_query u) || negb (truthy message_id) then
     if is_some (callback_query u) then
       api query_answer ;;
       api (query_edit_message_text text reply_markup) ;;
       ret tt
     else
       (* initial /start or our custom call *)
       id <- (if is_some (message u)
              then api (reply_html text reply_markup)
              else api (bot_send_message text reply_markup)) ;;
       modify (set_message_id (Some id))
   else
     (* edit existing message on /start command *)
     try_except
       (api (bot_edit_message_text (get_or message_id 0%Z) text reply_markup) ;;
        ret tt)
       (fun _ =>
          if is_some (message u) then
            id <- api (reply_html text reply_markup) ;;
            modify (set_message_id (Some id))
          else raise (AttributeError "reply_html"))) ;;
  ret START_ROUTES.

Definition start (u : update) : M stage :=
  st <- get_user_stats ;;
  text <- lift (menu_text st) ;;
  deliver u text.

(** ** [ask_for_amount] (lines 124-135) *)

Definition ask_for_amount (u : update) : M stage :=
  match callback_query u with
  | None => raise (AttributeError "answer")
  | Some data =>
      api query_answer ;;
      let transaction_type :=
        if String.eqb data ADD_INCOME then income else expense in
      modify (set_current_transaction
                (Some {| type := transaction_type; amount := None;
                         description := None; date := None |})) ;;
      let type_text :=
        if kind_eqb transaction_type income then "дохода" else "расхода" in
      api (query_edit_message_text ("Введите сумму " ++ type_text ++ ":") None) ;;
      ret GET_AMOUNT
  end.

(** ** [ask_for_description] (lines 137-147) *)

Definition not_a_number : string :=
  "Это не похоже на число. Пожалуйста, введите сумму еще раз.".

Definition enter_description : string := "Теперь введите краткое описание:".

Definition set_amount (a : A) (t : transaction) : transaction :=
  {| type := type t; amount := Some a; description := description t;
     date := date t |}.

Definition ask_for_description (u : update) : M stage :=
  match message u with
  | None => raise (AttributeError "text")
  | Some text =>
      match float text with
      | None =>
          (* ValueError *)
          api (reply_text not_a_number) ;;
          ret GET_AMOUNT
      | Some amount =>
          d <- read ;;
          match current_transaction d with
          | None => raise (KeyError "current_transaction")
          | Some t =>
              modify (set_current_transaction (Some (set_amount amount t))) ;;
              api (reply_text enter_description) ;;
              ret GET_DESCRIPTION
          end
      end
  end.

(** ** [save_transaction] (lines 149-187) *)

Definition set_description (s : string) (t : transaction) : transaction :=
  {| type := type t; amount := amount t; description := Some s;
     date := date t |}.

Definition set_date (s : string) (t : transaction) : transaction :=
  {| type := type t; amount := amount t; description := description t;
     date := Some s |}.

(** [str(e)] in the log line of line 168. *)
Definition str (e : exn) : string :=
  match e with
  | KeyError k => k
  | AttributeError a => a
  | TelegramError m => m
  end.

Definition save_transaction (u : update) : M stage :=
  match message u with
  | None => raise (AttributeError "text")
  | Some description =>
      d <- read ;;
      match current_transaction d with
      | None => raise (KeyError "current_transaction")
      | Some transaction =>
          let transaction := set_description description transaction in
          modify (set_current_transaction (Some transaction)) ;;
          now <- datetime_now ;;
          let transaction := set_date (isoformat now) transaction in
          modify (set_current_transaction (Some transaction)) ;;
          d <- read ;;
          (if is_some (transactions_today d) then ret tt
           else modify (set_transactions_today (Some []))) ;;
          modify (fun d =>
                    set_transactions_today
                      (Some (get_or (transactions_today d) [] ++ [transaction])%list)
                      d) ;;
          (* Clean up *)
          d <- read ;;
          let old_menu_id := message_id d in
          modify (set_message_id None) ;;
          (if truthy old_menu_id then
             try_except
               (api (bot_delete_message (get_or old_menu_id 0%Z)) ;; ret tt)
               (fun e =>
                  logger_info ("Could not delete old menu message: " ++ str e))
           else ret tt) ;;
          modify (set_current_transaction None) ;;
          (* Send new menu *)
          start MockUpdate
      end
  end.

(** ** The conversation (lines 209-223)

    The three kinds of update the [ConversationHandler] reacts to: the
    command [/start], a press of an inline button, and a text message that
    is not a command ([filters.TEXT & ~filters.COMMAND]). *)

Inductive event :=
| EntryCommand
| ButtonPress (data : string)
| TextInput (text : string).

Definition update_of (ev : event) : update :=
  match ev with
  | EntryCommand => {| callback_query := None; message := Some "/start" |}
  | ButtonPress data => {| callback_query := Some data; message := None |}
  | TextInput text => {| callback_query := None; message := Some text |}
  end.

(** [re.match("^(add_income|add_expense)$", data)]; [$] also matches before
    a final newline. *)
Definition pattern (data : string) : bool :=
  String.eqb data ADD_INCOME || String.eqb data ADD_EXPENSE
  || String.eqb data (ADD_INCOME ++ nl) || String.eqb data (ADD_EXPENSE ++ nl).

(** The handler chosen for an update: the entry point when there is no
    conversation, else the handler of the current stage, else the fallback;
    [None] when the update is ignored. *)
Definition handler_for (conv : option stage) (ev : event)
  : option (update -> M stage) :=
  match conv, ev with
  | None, EntryCommand => Some start
  | None, _ => None
  | Some START_ROUTES, ButtonPress data =>
      if pattern data then Some ask_for_amount else None
  | Some GET_AMOUNT, TextInput _ => Some ask_for_description
  | Some GET_DESCRIPTION, TextInput _ => Some save_transaction
  | Some _, EntryCommand => Some start
  | Some _, _ => None
  end.

(** One update.  The stage returned by the handler becomes the stage of the
    conversation; when the handler raises, the stage stays as it was. *)
Definition step (c : option stage * world) (ev : event) : option stage * world :=
  match handler_for (fst c) ev with
  | None => c
  | Some handler =>
      match handler (update_of ev) (snd c) with
      | (Ok s, w) => (Some s, w)
      | (Raise _, w) => (fst c, w)
      end
  end.

Definition run (c : option stage * world) (evs : list event)
  : option stage * world :=
  fold_left step evs c.

End Handlers.

(** ** The sums, as the specification words them

    "Sum of the amounts of the transactions of one kind": select the
    transactions of the kind, take their amounts, add them up from zero. *)

Definition of_kind (k : kind) (ts : list transaction) : list transaction :=
  filter (fun t => kind_eqb (type t) k) ts.

Definition sum_of (k : kind) (ts : list transaction) : A :=
  fold_left add (map (fun t => get_or (amount t) zero) (of_kind k ts)) zero.

(** The list under ['transactions_today'], empty when the key is absent. *)
Definition ledger (d : dict) : list transaction :=
  get_or (transactions_today d) [].

Definition has_amount (t : transaction) : Prop := amount t <> None.

(** Every transaction of the day carries an amount. *)
Definition ledger_ok (d : dict) : Prop := Forall has_amount (ledger d).

(** Lines 156-159 for several transactions in a row. *)
Definition append_transactions (more : list transaction) (d : dict) : dict :=
  set_transactions_today (Some (ledger d ++ more)%list) d.

(** Lines 39-42: the fields written when a new day is found. *)
Definition rollover (today_str : string) (d : dict) : dict :=
  set_last_update (Some today_str)
    (set_transactions_today (Some [])
       (set_balance_start_day (Some (get_or (balance_end_day d) zero)) d)).

(** The dictionary after line 42. *)
Definition day_opened (today_str : string) (d : dict) : dict :=
  if new_day d today_str then rollover today_str d else d.

(** The closing balance of a dictionary, computed afresh. *)
Definition closing (d : dict) : A :=
  sub (add (get_or (balance_start_day d) zero) (sum_of income (ledger d)))
      (sum_of expense (ledger d)).

(** The stats of a dictionary whose day is opened (lines 44-60), with the
    date read at line 54. *)
Definition stats_of (now : datetime) (d : dict) : stats :=
  {| st_date := strftime_dBY now;
     balance_start := get_or (balance_start_day d) zero;
     total_income := sum_of income (ledger d);
     total_expense := sum_of expense (ledger d);
     balance_end := closing d;
     transactions := ledger d |}.

(** Calls that put a new message in the chat, and calls that edit one. *)
Definition is_send (c : call) : bool :=
  match c with
  | reply_html _ _ | reply_text _ | bot_send_message _ _ => true
  | _ => false
  end.

Definition is_edit (c : call) : bool :=
  match c with
  | query_edit_message_text _ _ | bot_edit_message_text _ _ _ => true
  | _ => false
  end.

Definition sends (cs : list call) : nat := length (filter is_send cs).
Definition edits (cs : list call) : nat := length (filter is_edit cs).

(** The world with more calls on its trace. *)
Definition called (cs : list call) (w : world) : world :=
  {| user_data := user_data w; calls := (calls w ++ cs)%list;
     reads := reads w; log := log w |}.

(** Lines 44-51 on a world whose day is opened at [today_str]: the world
    that [get_user_stats] leaves behind. *)
Definition stats_done (today_str : string) (w : world) : world :=
  let d := day_opened today_str (user_data w) in
  {| user_data := set_balance_end_day (Some (closing d)) d;
     calls := calls w; reads := S (S (reads w)); log := log w |}.

(** Lines 151-174: the dictionary once the transaction is committed, and
    the calls and log lines of the clean-up. *)
Definition committed (now : datetime) (text : string) (t : transaction)
    (d : dict) : dict :=
  set_current_transaction None
    (set_message_id None
       (append_transactions
          [set_date (isoformat now) (set_description text t)] d)).

Definition cleanup_calls (d : dict) : list call :=
  if truthy (message_id d)
  then [bot_delete_message (get_or (message_id d) 0%Z)]
  else [].

Definition cleanup_log (env : environment) (w : world) : list string :=
  if truthy (message_id (user_data w)) then
    match transport env (length (calls w)) with
    | Done _ => []
    | Failed e => ["Could not delete old menu message: " ++ e]
    end
  else [].

(** The world at line 186, before the new menu is made. *)
Definition before_new_menu (env : environment) (text : string)
    (t : transaction) (w : world) : world :=
  {| user_data := committed (clock env (reads w)) text t (user_data w);
     calls := (calls w ++ cleanup_calls (user_data w))%list;
     reads := S (reads w);
     log := (log w ++ cleanup_log env w)%list |}.

(** The world after a commit whose new menu finds a new day: the day is
    opened from the dictionary without its pending transaction and message
    id, and the menu of the empty day is sent. *)
Definition new_day_commit (env : environment) (w : world) : world :=
  let today_str := strftime_Ymd (clock env (S (reads w))) in
  let r := rollover today_str
             (set_current_transaction None
                (set_message_id None (user_data w))) in
  let w2 := {| user_data := set_balance_end_day (Some (closing r)) r;
               calls := (calls w ++ cleanup_calls (user_data w))%list;
               reads := S (S (S (reads w)));
               log := (log w ++ cleanup_log env w)%list |} in
  let menu := menu_text env (stats_of (clock env (S (S (reads w)))) r) in
  let send := bot_send_message (get_or_text menu) (Some keyboard) in
  match transport env (length (calls w ++ cleanup_calls (user_data w))) with
  | Done new =>
      with_user_data (set_message_id (Some new) (user_data w2))
        (called [send] w2)
  | Failed _ => called [send] w2
  end.

(** ** Notions for the properties of whole conversations *)

(** In the description stage, a pending transaction carries its amount. *)
Definition pending_ok (conv : option stage) (d : dict) : Prop :=
  conv = Some GET_DESCRIPTION ->
  forall t, current_transaction d = Some t -> has_amount t.

(** A conversation whose stored transactions carry their amounts. *)
Definition sound (c : option stage * world) : Prop :=
  ledger_ok (user_data (snd c)) /\ pending_ok (fst c) (user_data (snd c)).

(** Every Bot API call is answered. *)
Definition always_answers (env : environment) : Prop :=
  forall n, exists id, transport env n = Done id.

(** Every clock read falls on the day written [today_str]. *)
Definition all_day (env : environment) (today_str : string) : Prop :=
  forall i, strftime_Ymd (clock env i) = today_str.

(** The dictionary that [get_user_stats] leaves when the day read is
    [today_str] (lines 37-51). *)
Definition refreshed (today_str : string) (d : dict) : dict :=
  set_balance_end_day (Some (closing (day_opened today_str d)))
    (day_opened today_str d).

(** Two dictionaries alike but for the message id. *)
Definition but_message_id (d d' : dict) : Prop :=
  d' = d \/ exists id, d' = set_message_id (Some id) d.

(** After the first [/start], the stored closing balance is the one
    computed from the stored opening balance and list. *)
Definition balanced (c : option stage * world) : Prop :=
  fst c <> None ->
  balance_end_day (user_data (snd c)) = Some (closing (user_data (snd c))).

(** A transaction as the commit makes it. *)
Definition complete (t : transaction) : Prop :=
  amount t <> None /\ description t <> None /\ date t <> None.

(** Lines 129-130: the dictionary made for a button. *)
Definition fresh_pending (data : string) : transaction :=
  {| type := if String.eqb data ADD_INCOME then income else expense;
     amount := None; description := None; date := None |}.

(** Lines 132-133: the prompt for the amount. *)
Definition amount_prompt (data : string) : string :=
  "Введите сумму "
  ++ (if String.eqb data ADD_INCOME then "дохода" else "расхода") ++ ":".

(** A whole dialogue from the main menu: a button, texts that are no
    numbers, a number, a description. *)
Definition dialogue (data : string) (bads : list string) (good descr : string)
  : list event :=
  (ButtonPress data :: map TextInput bads
   ++ [TextInput good; TextInput descr])%list.

(** The dictionary with the clock read of a raising [get_user_stats]. *)
Definition one_read (w : world) : world :=
  {| user_data := user_data w; calls := calls w; reads := S (reads w);
     log := log w |}.

Definition new_world : world :=
  {| user_data := empty_dict; calls := []; reads := 0; log := [] |}.

End Model.

Arguments transaction : clear implicits.
Arguments dict : clear implicits.
Arguments stats : clear implicits.
Arguments world : clear implicits.
Arguments M : clear implicits.
Arguments Raise {X} e.

(** ** Whole hundredths: the numbers of the scenarios

    An instance of [Number] that runs: amounts are counted in hundredths,
    [float] reads a plain decimal literal with at most two decimals (an
    optional sign, digits, an optional point and decimals) and answers
    [None] on everything else.  It is used to run the program on concrete
    dialogues only; the theorems hold for every instance. *)

Module Cents.

Definition digit_of (c : ascii) : option Z :=
  let n := nat_of_ascii c in
  if (48 <=? n)%nat && (n <=? 57)%nat then Some (Z.of_nat (n - 48)) else None.

Fixpoint number (acc : Z) (s : string) : option Z :=
  match s with
  | EmptyString => Some acc
  | String c s' =>
      match digit_of c with
      | Some d => number (acc * 10 + d) s'
      | None => None
      end
  end.

Fixpoint split_point (s : string) : string * option string :=
  match s with
  | EmptyString => (EmptyString, None)
  | String c s' =>
      if Ascii.eqb c "."%char then (EmptyString, Some s')
      else let (whole, decimals) := split_point s' in (String c whole, decimals)
  end.

Definition unsigned (s : string) : option Z :=
  let (whole, decimals) := split_point s in
  let decimals := get_or decimals "" in
  if (String.length whole + String.length decimals =? 0)%nat then None
  else
    match number 0 whole, number 0 decimals, String.length decimals with
    | Some n, Some _, 0%nat => Some (n * 100)%Z
    | Some n, Some d, 1%nat => Some (n * 100 + d * 10)%Z
    | Some n, Some d, 2%nat => Some (n * 100 + d)%Z
    | _, _, _ => None
    end.

Definition parse (s : string) : option Z :=
  match s with
  | String "-"%char s' => option_map Z.opp (unsigned s')
  | String "+"%char s' => unsigned s'
  | _ => unsigned s
  end.

Definition show (c : Z) : string :=
  (if (c <? 0)%Z then "-" else "")
  ++ digits (Z.to_nat (Z.abs c / 100)) ++ "."
  ++ pad 2 (Z.to_nat (Z.abs c mod 100)).

#[global] Instance cents : Number Z :=
  {| zero := 0%Z; add := Z.add; sub := Z.sub; fmt2 := show; float := parse |}.

End Cents.

(** ** Concrete days and dialogues *)

Module Scenario.

Definition at_noon (d : nat) : datetime :=
  {| year := 2026; month := 3; day := d; time_iso := "12:00:00+05:00" |}.

(** A quiet day: every clock read falls on 7 March 2026 and every call is
    answered; the n-th call is answered with message [100 + n]. *)
Definition quiet : environment :=
  {| clock := fun _ => at_noon 7;
     transport := fun n => Done (100 + Z.of_nat n);
     mention_html := "Ann" |}.

(** The same day, with the first call refused. *)
Definition first_call_fails : environment :=
  {| clock := fun _ => at_noon 7;
     transport := fun n =>
                    match n with
                    | O => Failed "Message is not modified"
                    | S _ => Done (100 + Z.of_nat n)
                    end;
     mention_html := "Ann" |}.

(** A user never seen before. *)
Definition fresh : world Z := new_world.

Definition lunch : transaction Z :=
  {| type := expense; amount := Some 1250%Z; description := Some "lunch";
     date := Some "2026-03-07T09:00:00+05:00" |}.

Definition salary : transaction Z :=
  {| type := income; amount := Some 15000%Z; description := Some "salary";
     date := Some "2026-03-07T10:00:00+05:00" |}.

(** 7 March already opened, with one expense and the menu in message 7. *)
Definition today_open : world Z :=
  with_user_data
    {| last_update := Some "2026-03-07";
       balance_start_day := Some 5000%Z;
       balance_end_day := Some 3750%Z;
       transactions_today := Some [lunch];
       message_id := Some 7%Z;
       current_transaction := None |}
    new_world.

(** What 6 March left behind: a closing balance of 50.00. *)
Definition yesterday : world Z :=
  with_user_data
    {| last_update := Some "2026-03-06";
       balance_start_day := Some 6250%Z;
       balance_end_day := Some 5000%Z;
       transactions_today := Some [lunch];
       message_id := Some 7%Z;
       current_transaction := None |}
    new_world.

(** The dialogue of a new user up to the description prompt, and the
    worlds it leads to on the quiet day. *)
Definition salary_dialogue : list event :=
  [EntryCommand; ButtonPress ADD_INCOME; TextInput "150"].

Definition awaiting_amount : world Z :=
  snd (run quiet (None, fresh) [EntryCommand; ButtonPress ADD_INCOME]).

Definition awaiting_description : world Z :=
  snd (run quiet (None, fresh) salary_dialogue).

(** A dialogue that enters a negative amount. *)
Definition refund_dialogue : list event :=
  [EntryCommand; ButtonPress ADD_INCOME; TextInput "-5"; TextInput "refund"].

(** A dialogue begun on 6 March, at the description prompt. *)
Definition begun_yesterday : world Z :=
  with_user_data
    (set_current_transaction
       (Some {| type := income; amount := Some 15000%Z; description := None;
                date := None |})
       (user_data yesterday))
    yesterday.

(** Seven transactions, numbered by their amounts. *)
Definition seven : list (transaction Z) :=
  map (fun n => {| type := if Z.even n then income else expense;
                   amount := Some (n * 100)%Z;
                   description := if (n =? 6)%Z then None else Some "item";
                   date := None |})
      [1; 2; 3; 4; 5; 6; 7]%Z.

Definition seven_stats : stats Z :=
  {| st_date := "07 March 2026"; balance_start := 0%Z; total_income := 1200%Z;
     total_expense := 1600%Z; balance_end := (-400)%Z; transactions := seven |}.

(** Pending transactions and single steps used below. *)
Definition pending_income : transaction Z :=
  {| type := income; amount := None; description := None; date := None |}.

Definition pending_salary : transaction Z :=
  {| type := income; amount := Some 15000%Z; description := None;
     date := None |}.

Definition salary_committed : option stage * world Z :=
  step quiet (Some GET_DESCRIPTION, awaiting_description) (TextInput "salary").

Definition nothing_pending : option stage * world Z :=
  step quiet (Some GET_DESCRIPTION, today_open) (TextInput "salary").

Definition minus_five : option stage * world Z :=
  step quiet (Some GET_AMOUNT, awaiting_amount) (TextInput "-5").

Definition refund_committed : option stage * world Z :=
  step quiet (Some GET_DESCRIPTION, snd minus_five) (TextInput "refund").

Definition start_once : option stage * world Z :=
  step quiet (Some START_ROUTES, today_open) EntryCommand.

Definition start_twice : option stage * world Z :=
  run quiet (Some START_ROUTES, today_open) [EntryCommand; EntryCommand].

Definition start_refused : option stage * world Z :=
  step first_call_fails (Some START_ROUTES, today_open) EntryCommand.

Definition salary_after_midnight : option stage * world Z :=
  step quiet (Some GET_DESCRIPTION, begun_yesterday) (TextInput "salary").

(** The open day with a salary left pending by an abandoned dialogue. *)
Definition stale_pending : world Z :=
  with_user_data
    (set_current_transaction (Some pending_salary) (user_data today_open))
    today_open.

(** The open day with a stored transaction that has no amount. *)
Definition no_amount_stored : world Z :=
  with_user_data
    (set_transactions_today (Some [lunch; pending_income])
       (user_data today_open))
    today_open.

(** Two clock reads on 7 March, the later ones on 8 March. *)
Definition two_days : environment :=
  {| clock := fun n => if (n <? 2)%nat then at_noon 7 else at_noon 8;
     transport := fun n => Done (100 + Z.of_nat n);
     mention_html := "Ann" |}.

(** The quiet day, but for the call number [n], which fails. *)
Definition fails_at (n : nat) : environment :=
  {| clock := fun _ => at_noon 7;
     transport := fun i => if (i =? n)%nat then Failed "Timed out"
                           else Done (100 + Z.of_nat i);
     mention_html := "Ann" |}.

(** An expense entered at the second try. *)
Definition taxi_dialogue : list event :=
  dialogue ADD_EXPENSE ["abc"] "12.5" "taxi".

Definition taxi : transaction Z :=
  {| type := expense; amount := Some 1250%Z; description := Some "taxi";
     date := Some "2026-03-07T12:00:00+05:00" |}.

(** A transaction whose description is present and empty, alone in the
    list of the day. *)
Definition blank : transaction Z :=
  {| type := income; amount := Some 100%Z; description := Some "";
     date := None |}.

Definition blank_stats : stats Z :=
  {| st_date := "07 March 2026"; balance_start := 0%Z; total_income := 100%Z;
     total_expense := 0%Z; balance_end := 100%Z; transactions := [blank] |}.

End Scenario.

(** * Properties *)

(** The numbers and dates of the scenarios read and print as expected. *)
Example cents_parse_examples :
  Cents.parse "150" = Some 15000%Z /\ Cents.parse "-5" = Some (-500)%Z /\
  Cents.parse "12.5" = Some 1250%Z /\ Cents.parse "abc" = None /\
  Cents.parse "" = None /\ Cents.parse "1.234" = None.
Proof. repeat split. Qed.

Example cents_show_examples :
  Cents.show 15000 = "150.00" /\ Cents.show (-505) = "-5.05" /\
  Cents.show 0 = "0.00".
Proof. repeat split. Qed.

Example strftime_examples :
  strftime_Ymd (Scenario.at_noon 7) = "2026-03-07" /\
  strftime_dBY (Scenario.at_noon 7) = "07 March 2026" /\
  isoformat (Scenario.at_noon 7) = "2026-03-07T12:00:00+05:00".
Proof. repeat split. Qed.

Section Ledger.

Context {A : Type} `{Number A}.
Variable env : environment.

Lemma sum_from_fold (k : kind) (ts : list (transaction A)) :
  Forall has_amount ts ->
  forall acc,
    sum_from acc k ts
    = Ok (fold_left add (map (fun t => get_or (amount t) zero) (of_kind k ts)) acc).
Proof.
  induction 1 as [|t ts Ht _ IH]; intro acc; simpl.
  - reflexivity.
  - destruct (kind_eqb (type t) k); simpl.
    + destruct (amount t) as [a|] eqn:E.
      * apply IH.
      * exfalso. apply Ht. exact E.
    + apply IH.
Qed.

Lemma sum_from_total (k : kind) (ts : list (transaction A)) :
  Forall has_amount ts -> sum_from zero k ts = Ok (sum_of k ts).
Proof. intro Hts. unfold sum_of. now apply sum_from_fold. Qed.

Lemma ledger_ok_day_opened (today_str : string) (d : dict A) :
  ledger_ok d -> ledger_ok (day_opened today_str d).
Proof.
  unfold day_opened; destruct (new_day d today_str); intro Hd.
  - constructor.
  - exact Hd.
Qed.

(** What [get_user_stats] returns and leaves behind, whenever the
    transactions it sums carry their amounts. *)
Lemma get_user_stats_run (w : world A) :
  let today_str := strftime_Ymd (clock env (reads w)) in
  let d := day_opened today_str (user_data w) in
  ledger_ok d ->
  get_user_stats env w
  = (Ok (stats_of (clock env (S (reads w))) d), stats_done today_str w).
Proof.
  intros today_str d Hd.
  assert (Hi := sum_from_total income Hd).
  assert (He := sum_from_total expense Hd).
  subst d today_str. revert Hd Hi He.
  unfold get_user_stats, stats_done, day_opened, bind, datetime_now, read,
    modify, ret, sum_amounts, with_user_data; simpl.
  destruct (new_day (user_data w) (strftime_Ymd (clock env (reads w)))); simpl;
    intros Hd Hi He.
  - reflexivity.
  - unfold ledger in Hi, He. rewrite Hi, He. reflexivity.
Qed.

Lemma ledger_ok_append (more : list (transaction A)) (d : dict A) :
  ledger_ok d -> Forall has_amount more ->
  ledger_ok (append_transactions more d).
Proof.
  unfold ledger_ok, append_transactions, ledger; simpl.
  intros Hd Hmore. apply Forall_app. now split.
Qed.

(** C1 (conservation).  Take any dictionary whose transactions carry their
    amounts and append any sequence of such transactions to it.  The stats
    computation then returns, and the closing balance it returns is the one
    it stores under ['balance_end_day'] and equals the opening balance plus
    the sum of the income amounts minus the sum of the expense amounts, all
    read from the dictionary it leaves behind.  On a day already opened the
    appended transactions are all counted, and the result does not depend on
    the closing balance stored before the call: it is computed afresh. *)
Theorem conservation (w : world A) (more : list (transaction A)) :
  ledger_ok (user_data w) ->
  Forall has_amount more ->
  let w0 := with_user_data (append_transactions more (user_data w)) w in
  exists st w',
    get_user_stats env w0 = (Ok st, w') /\
    balance_end_day (user_data w') = Some (balance_end st) /\
    balance_end st
    = sub (add (get_or (balance_start_day (user_data w')) zero)
               (sum_of income (ledger (user_data w'))))
          (sum_of expense (ledger (user_data w'))) /\
    balance_start st = get_or (balance_start_day (user_data w')) zero /\
    total_income st = sum_of income (ledger (user_data w')) /\
    total_expense st = sum_of expense (ledger (user_data w')) /\
    transactions st = ledger (user_data w') /\
    (new_day (user_data w0) (strftime_Ymd (clock env (reads w0))) = false ->
     ledger (user_data w') = (ledger (user_data w) ++ more)%list /\
     forall stored,
       get_user_stats env
         (with_user_data (set_balance_end_day stored (user_data w0)) w0)
       = (Ok st, w')).
Proof.
  intros Hw Hmore w0.
  assert (Hok : ledger_ok (user_data w0)) by now apply ledger_ok_append.
  pose proof (get_user_stats_run w0
                (ledger_ok_day_opened
                   (strftime_Ymd (clock env (reads w0))) Hok)) as Hrun.
  eexists; eexists; split; [exact Hrun|].
  do 6 (split; [reflexivity|]).
  intro Hday. split.
  { unfold stats_done, day_opened. rewrite Hday. reflexivity. }
  intro stored.
  set (w1 := with_user_data (set_balance_end_day stored (user_data w0)) w0).
  assert (Hday1 : day_opened (strftime_Ymd (clock env (reads w1))) (user_data w1)
                  = user_data w1).
  { unfold day_opened. replace (new_day (user_data w1) _) with false; reflexivity
      || (symmetry; exact Hday). }
  assert (Hok1 : ledger_ok (day_opened (strftime_Ymd (clock env (reads w1)))
                              (user_data w1))).
  { rewrite Hday1. exact Hok. }
  rewrite (get_user_stats_run w1 Hok1), Hday1.
  unfold stats_done. rewrite Hday1.
  unfold day_opened. rewrite Hday. reflexivity.
Qed.

Lemma same_day_Ymd (a b : datetime) :
  same_day a b -> strftime_Ymd a = strftime_Ymd b.
Proof.
  intros (Hy & Hm & Hd). unfold strftime_Ymd. now rewrite Hy, Hm, Hd.
Qed.

Lemma same_day_dBY (a b : datetime) :
  same_day a b -> strftime_dBY a = strftime_dBY b.
Proof.
  intros (Hy & Hm & Hd). unfold strftime_dBY. now rewrite Hy, Hm, Hd.
Qed.

Lemma new_day_true (d : dict A) (today_str : string) :
  new_day d today_str = true <-> last_update d <> Some today_str.
Proof.
  unfold new_day. destruct (last_update d) as [s|].
  - destruct (String.eqb_spec s today_str) as [->|Hne]; simpl; split;
      congruence.
  - split; congruence.
Qed.

(** Once the day is opened, the test of line 37 fails for that day. *)
Lemma new_day_day_opened (d : dict A) (today_str : string) :
  new_day (day_opened today_str d) today_str = false.
Proof.
  unfold day_opened. destruct (new_day d today_str) eqn:E.
  - unfold new_day; simpl. now rewrite String.eqb_refl.
  - exact E.
Qed.

Lemma day_opened_again (d : dict A) (today_str : string) (stored : option A) :
  day_opened today_str (set_balance_end_day stored (day_opened today_str d))
  = set_balance_end_day stored (day_opened today_str d).
Proof.
  unfold day_opened at 1.
  replace (new_day (set_balance_end_day stored (day_opened today_str d))
             today_str)
    with (new_day (day_opened today_str d) today_str) by reflexivity.
  now rewrite new_day_day_opened.
Qed.

(** C2 (idempotence).  Two calls of the stats computation in a row, with
    all four clock reads on one calendar day, on a dictionary whose
    transactions carry their amounts: both calls return, with the same
    stats; the second call leaves the dictionary, and so the opening
    balance, as the first call left it; and the new-day test of the second
    call fails, so the carry-forward is not run again. *)
Theorem stats_idempotent (w : world A) :
  ledger_ok (user_data w) ->
  (forall i, (i < 4)%nat ->
             same_day (clock env (i + reads w)) (clock env (reads w))) ->
  exists st w1 w2,
    get_user_stats env w = (Ok st, w1) /\
    get_user_stats env w1 = (Ok st, w2) /\
    user_data w2 = user_data w1 /\
    balance_start_day (user_data w2) = balance_start_day (user_data w1) /\
    new_day (user_data w1) (strftime_Ymd (clock env (reads w1))) = false.
Proof.
  intros Hw Hclock.
  set (today_str := strftime_Ymd (clock env (reads w))).
  assert (H1 : strftime_dBY (clock env (S (reads w)))
               = strftime_dBY (clock env (reads w)))
    by (apply same_day_dBY, (Hclock 1%nat); lia).
  assert (H2 : strftime_Ymd (clock env (S (S (reads w)))) = today_str)
    by (apply same_day_Ymd, (Hclock 2%nat); lia).
  assert (H3 : strftime_dBY (clock env (S (S (S (reads w)))))
               = strftime_dBY (clock env (reads w)))
    by (apply same_day_dBY, (Hclock 3%nat); lia).
  pose proof (get_user_stats_run w (ledger_ok_day_opened today_str Hw)) as R1.
  fold today_str in R1.
  assert (Hd1 : day_opened (strftime_Ymd (clock env (reads (stats_done today_str w))))
                  (user_data (stats_done today_str w))
                = user_data (stats_done today_str w)).
  { unfold stats_done; simpl. rewrite H2. apply day_opened_again. }
  assert (Hok1 : ledger_ok
                   (day_opened
                      (strftime_Ymd (clock env (reads (stats_done today_str w))))
                      (user_data (stats_done today_str w)))).
  { rewrite Hd1. apply (ledger_ok_day_opened today_str Hw). }
  pose proof (get_user_stats_run (stats_done today_str w) Hok1) as R2.
  assert (Hsame : user_data
                    (stats_done
                       (strftime_Ymd (clock env (reads (stats_done today_str w))))
                       (stats_done today_str w))
                  = user_data (stats_done today_str w)).
  { unfold stats_done at 1. cbn [user_data]. rewrite Hd1. reflexivity. }
  eexists; exists (stats_done today_str w); eexists.
  split; [exact R1|].
  split.
  { rewrite R2, Hd1. unfold stats_of, stats_done. simpl.
    rewrite H1, H3. reflexivity. }
  split; [exact Hsame|].
  split; [exact (f_equal (@balance_start_day A) Hsame)|].
  unfold stats_done; simpl. rewrite H2.
  apply (new_day_day_opened (user_data w) today_str).
Qed.

(** C3 (rollover).  When ['last_update'] is absent or is not today's date,
    the stats computation returns and leaves the opening balance equal to
    the closing balance stored before (0 when there was none), an empty
    list of transactions and ['last_update'] equal to today; the returned
    stats show that opening balance and no transaction.  The outcome is the
    same whatever the earlier date was, and the new-day test fails
    afterwards: one carry-forward step, no more, however long the gap. *)
Theorem rollover_correct (w : world A) :
  let today_str := strftime_Ymd (clock env (reads w)) in
  last_update (user_data w) <> Some today_str ->
  exists st w',
    get_user_stats env w = (Ok st, w') /\
    balance_start_day (user_data w')
    = Some (get_or (balance_end_day (user_data w)) zero) /\
    transactions_today (user_data w') = Some [] /\
    last_update (user_data w') = Some today_str /\
    balance_start st = get_or (balance_end_day (user_data w)) zero /\
    transactions st = [] /\
    new_day (user_data w') today_str = false /\
    forall earlier,
      earlier <> Some today_str ->
      get_user_stats env
        (with_user_data (set_last_update earlier (user_data w)) w)
      = (Ok st, w').
Proof.
  intros today_str Hdate.
  apply new_day_true in Hdate.
  assert (Hopen : day_opened today_str (user_data w)
                  = rollover today_str (user_data w))
    by (unfold day_opened; now rewrite Hdate).
  assert (Hok : ledger_ok (day_opened today_str (user_data w)))
    by (rewrite Hopen; constructor).
  pose proof (get_user_stats_run w Hok) as R.
  unfold stats_done in R. fold today_str in R. rewrite Hopen in R.
  eexists; eexists. split; [exact R|].
  do 5 (split; [reflexivity|]).
  split.
  { unfold new_day; simpl. now rewrite String.eqb_refl. }
  intros earlier Hearlier.
  set (w1 := with_user_data (set_last_update earlier (user_data w)) w).
  assert (Hopen1 : day_opened (strftime_Ymd (clock env (reads w1)))
                     (user_data w1)
                   = rollover today_str (user_data w)).
  { unfold day_opened.
    assert (E : new_day (user_data w1) (strftime_Ymd (clock env (reads w1)))
                = true) by (apply new_day_true; exact Hearlier).
    rewrite E. reflexivity. }
  assert (Hok1 : ledger_ok (day_opened (strftime_Ymd (clock env (reads w1)))
                              (user_data w1)))
    by (rewrite Hopen1; constructor).
  rewrite (get_user_stats_run w1 Hok1). unfold stats_done.
  rewrite Hopen1. reflexivity.
Qed.

End Ledger.

Section Renderer.

Context {A : Type} `{Number A}.
Variable env : environment.

Lemma string_app_assoc (a b c : string) : (a ++ b) ++ c = a ++ (b ++ c).
Proof.
  induction a as [|ch a IH]; simpl.
  - reflexivity.
  - now rewrite IH.
Qed.

Lemma string_app_nil_r (a : string) : a ++ "" = a.
Proof.
  induction a as [|ch a IH]; simpl.
  - reflexivity.
  - now rewrite IH.
Qed.

(** The slice [l[-5:]] is the tail end of [l], of five elements or of all
    of them when there are fewer. *)
Lemma last5_suffix {X : Type} (l : list X) :
  l = (firstn (length l - 5) l ++ last5 l)%list
  /\ length (last5 l) = Nat.min 5 (length l).
Proof.
  unfold last5. split.
  - symmetry. apply firstn_skipn.
  - rewrite length_skipn. lia.
Qed.

Lemma op_line_ok (t : transaction A) :
  has_amount t -> exists line, op_line t = Ok line /\ is_line_of t line.
Proof.
  unfold has_amount, op_line, is_line_of. intro Ht.
  destruct (amount t) as [a|]; [|congruence].
  eexists; split; [reflexivity|].
  exists a; split; [reflexivity|].
  destruct (type t), (description t); reflexivity.
Qed.

Lemma append_lines_ok (ts : list (transaction A)) :
  Forall has_amount ts ->
  forall text,
  exists lines,
    append_lines text ts = Ok (text ++ String.concat "" lines)
    /\ Forall2 is_line_of ts lines.
Proof.
  induction 1 as [|t ts Ht _ IH]; intro text.
  - exists []. split; [|constructor]. simpl.
    now rewrite string_app_nil_r.
  - destruct (op_line_ok Ht) as (line & Hline & Hshape).
    destruct (IH (text ++ line)) as (lines & Hrun & Hall).
    exists (line :: lines). split; [|now constructor].
    simpl. rewrite Hline, Hrun. f_equal.
    rewrite string_app_assoc. f_equal.
    destruct lines as [|l ls]; simpl.
    + now rewrite string_app_nil_r.
    + reflexivity.
Qed.

Lemma Forall_last5 {X : Type} (P : X -> Prop) (l : list X) :
  Forall P l -> Forall P (last5 l).
Proof.
  intro Hl. destruct (last5_suffix l) as [Hsplit _].
  rewrite Hsplit in Hl. now apply Forall_app in Hl.
Qed.

Lemma menu_text_ok (st : stats A) :
  Forall has_amount (transactions st) ->
  menu_text env st = Ok (menu_of env st).
Proof.
  intro Hts. unfold menu_of.
  unfold menu_text. destruct (transactions st) as [|t ts] eqn:E.
  - reflexivity.
  - rewrite <- E. rewrite <- E in Hts.
    destruct (append_lines_ok (Forall_last5 Hts) (header env st))
      as (lines & Hrun & _).
    now rewrite Hrun.
Qed.

(** C8, as the program has it.  For stats whose transactions carry their
    amounts, the menu text is the header followed by one line for each of
    the shown transactions; the shown transactions are the last five (all
    of them when there are at most five), in the order of the list; each
    line opens with the marker of the kind.  The label "без описания"
    stands for the description when the key ['description'] is absent; a
    description that is present is shown as it is, an empty one as
    nothing.  With no transaction at all the header is followed by the
    notice. *)
Theorem menu_shows_last_five (st : stats A) :
  Forall has_amount (transactions st) ->
  exists hidden shown lines,
    transactions st = (hidden ++ shown)%list /\
    length shown = Nat.min 5 (length (transactions st)) /\
    Forall2 is_line_of shown lines /\
    menu_text env st
    = Ok (header env st
          ++ match transactions st with
             | [] => no_operations
             | _ :: _ => String.concat "" lines
             end).
Proof.
  intro Hts.
  destruct (last5_suffix (transactions st)) as [Hsplit Hlen].
  destruct (append_lines_ok (Forall_last5 Hts) (header env st))
    as (lines & Hrun & Hall).
  exists (firstn (length (transactions st) - 5) (transactions st)),
    (last5 (transactions st)), lines.
  repeat split; try assumption.
  unfold menu_text. destruct (transactions st); [reflexivity|exact Hrun].
Qed.

End Renderer.

Section Dialogue.

Context {A : Type} `{Number A}.
Variable env : environment.

(** [start] is the stats computation followed by the delivery of the text
    made from the stats. *)
Lemma start_run (u : update) (w : world A) :
  let today_str := strftime_Ymd (clock env (reads w)) in
  ledger_ok (day_opened today_str (user_data w)) ->
  start env u w
  = deliver env u
      (menu_of env (stats_of (clock env (S (reads w)))
                      (day_opened today_str (user_data w))))
      (stats_done today_str w).
Proof.
  intros today_str Hok. unfold start, bind at 1.
  rewrite (get_user_stats_run env w Hok). fold today_str.
  unfold bind at 1, lift.
  rewrite (menu_text_ok env (stats_of (clock env (S (reads w)))
                               (day_opened today_str (user_data w))) Hok).
  reflexivity.
Qed.

(** Delivery when there is no callback query and no usable message id: one
    new message, whose id is recorded. *)
Lemma deliver_new (u : update) (text : string) (w : world A) :
  callback_query u = None ->
  truthy (message_id (user_data w)) = false ->
  deliver env u text w
  = match transport env (length (calls w)) with
    | Done id =>
        (Ok START_ROUTES,
         with_user_data (set_message_id (Some id) (user_data w))
           (called [new_menu_call u text] w))
    | Failed e =>
        (Raise (TelegramError e), called [new_menu_call u text] w)
    end.
Proof.
  intros Hq Hid.
  unfold deliver, new_menu_call, bind, read, modify, ret, api, called,
    with_user_data; simpl.
  rewrite Hq, Hid; simpl.
  destruct (is_some (message u)); simpl;
    destruct (transport env (length (calls w))); reflexivity.
Qed.

(** Delivery on a command when a message id is recorded: the message is
    edited; when the edit fails a new message is sent as a reply and its
    id recorded. *)
Lemma deliver_edit (u : update) (text : string) (w : world A) (id : Z)
    (m : string) :
  callback_query u = None ->
  message u = Some m ->
  message_id (user_data w) = Some id ->
  id <> 0%Z ->
  let edit := bot_edit_message_text id text (Some keyboard) in
  let send := reply_html text (Some keyboard) in
  deliver env u text w
  = match transport env (length (calls w)) with
    | Done _ => (Ok START_ROUTES, called [edit] w)
    | Failed _ =>
        match transport env (S (length (calls w))) with
        | Done new =>
            (Ok START_ROUTES,
             with_user_data (set_message_id (Some new) (user_data w))
               (called [edit; send] w))
        | Failed e => (Raise (TelegramError e), called [edit; send] w)
        end
    end.
Proof.
  intros Hq Hm Hid Hnz edit send.
  assert (Ht : truthy (Some id) = true).
  { simpl. destruct (Z.eqb_spec id 0); [contradiction|reflexivity]. }
  unfold deliver, bind, read, modify, ret, api, try_except, called,
    with_user_data; simpl.
  rewrite Hq, Hm, Hid, Ht; simpl.
  destruct (transport env (length (calls w))); [reflexivity|].
  simpl. rewrite length_app; simpl. rewrite Nat.add_1_r.
  destruct (transport env (S (length (calls w)))); simpl;
    rewrite <- app_assoc; reflexivity.
Qed.

(** [save_transaction] commits, cleans up, and then runs [start] on the
    mock update. *)
Lemma save_transaction_run (text : string) (t : transaction A) (w : world A) :
  current_transaction (user_data w) = Some t ->
  save_transaction env (update_of (TextInput text)) w
  = start env MockUpdate (before_new_menu env text t w).
Proof.
  destruct w as [[lu bs be txs mid ct] cs rd lg]; simpl.
  intro Ht; subst ct.
  unfold save_transaction, before_new_menu, committed, cleanup_calls,
    cleanup_log, append_transactions, ledger.
  unfold bind, read, modify, ret, datetime_now, api, try_except, logger_info,
    with_user_data; simpl.
  destruct txs as [l|]; simpl;
    destruct (truthy mid); simpl;
    try (destruct (transport env (length cs)); simpl);
    rewrite ?app_nil_r; reflexivity.
Qed.

Lemma message_id_stats_done (today_str : string) (w : world A) :
  message_id (user_data (stats_done today_str w)) = message_id (user_data w).
Proof.
  unfold stats_done, day_opened; simpl.
  destruct (new_day (user_data w) today_str); reflexivity.
Qed.

Lemma ledger_ok_stats_done (today_str : string) (w : world A) :
  ledger_ok (user_data w) -> ledger_ok (user_data (stats_done today_str w)).
Proof.
  intro Hw. unfold stats_done; simpl.
  apply (ledger_ok_day_opened today_str Hw).
Qed.

(** What the command [/start] does in the main menu, case by case. *)
Lemma entry_command_run (w : world A) :
  let today_str := strftime_Ymd (clock env (reads w)) in
  let text := menu_of env (stats_of (clock env (S (reads w)))
                             (day_opened today_str (user_data w))) in
  let w1 := stats_done today_str w in
  let edit id := bot_edit_message_text id text (Some keyboard) in
  let send := reply_html text (Some keyboard) in
  let n := length (calls w) in
  ledger_ok (user_data w) ->
  step env (Some START_ROUTES, w) EntryCommand
  = if truthy (message_id (user_data w)) then
      let id := get_or (message_id (user_data w)) 0%Z in
      match transport env n with
      | Done _ => (Some START_ROUTES, called [edit id] w1)
      | Failed _ =>
          match transport env (S n) with
          | Done new =>
              (Some START_ROUTES,
               with_user_data (set_message_id (Some new) (user_data w1))
                 (called [edit id; send] w1))
          | Failed _ => (Some START_ROUTES, called [edit id; send] w1)
          end
      end
    else
      match transport env n with
      | Done new =>
          (Some START_ROUTES,
           with_user_data (set_message_id (Some new) (user_data w1))
             (called [send] w1))
      | Failed _ => (Some START_ROUTES, called [send] w1)
      end.
Proof.
  intros today_str text w1 edit send n Hw.
  unfold step; cbn [handler_for fst snd].
  rewrite (start_run _ w (ledger_ok_day_opened today_str Hw)).
  fold today_str text w1.
  pose proof (message_id_stats_done today_str w) as Hid. fold w1 in Hid.
  destruct (truthy (message_id (user_data w))) eqn:Ht.
  - destruct (message_id (user_data w)) as [id|] eqn:E; [|discriminate].
    assert (Hnz : id <> 0%Z).
    { intros ->. discriminate. }
    rewrite (@deliver_edit (update_of EntryCommand) text w1 id "/start"
               eq_refl eq_refl Hid Hnz).
    change (length (calls w1)) with n. cbn [get_or].
    destruct (transport env n); [reflexivity|].
    destruct (transport env (S n)); reflexivity.
  - rewrite deliver_new; [|reflexivity|now rewrite Hid].
    change (length (calls w1)) with n.
    destruct (transport env n); reflexivity.
Qed.

(** C5 (parse failure).  In the amount stage, a text that [float] does not
    convert leaves the conversation in the amount stage and the dictionary
    as it was, pending transaction and ledger included; the one effect is
    the retry prompt.  This holds whether or not the prompt is delivered;
    when it is, the handler itself returns the amount stage. *)
Theorem parse_failure_loop (w : world A) (text : string) :
  float text = None ->
  step env (Some GET_AMOUNT, w) (TextInput text)
  = (Some GET_AMOUNT, called [reply_text not_a_number] w)
  /\ user_data (snd (step env (Some GET_AMOUNT, w) (TextInput text)))
     = user_data w
  /\ forall id,
       transport env (length (calls w)) = Done id ->
       ask_for_description env (update_of (TextInput text)) w
       = (Ok GET_AMOUNT, called [reply_text not_a_number] w).
Proof.
  intro Hparse.
  assert (Hstep : step env (Some GET_AMOUNT, w) (TextInput text)
                  = (Some GET_AMOUNT, called [reply_text not_a_number] w)).
  { unfold step; cbn [handler_for fst snd].
    unfold ask_for_description; cbn [update_of message].
    rewrite Hparse. unfold bind, api, ret, called.
    destruct (transport env (length (calls w))); reflexivity. }
  split; [exact Hstep|]. split; [now rewrite Hstep|].
  intros id Hid. unfold ask_for_description; cbn [update_of message].
  rewrite Hparse. unfold bind, api, ret, called. now rewrite Hid.
Qed.

(** C6, as the program has it.  When the description stage is reached with
    no pending transaction, the handler raises [KeyError] at once: the
    dictionary, the trace and the log are untouched, no menu is made, and
    the conversation stays in the description stage. *)
Theorem missing_pending_raises (w : world A) (text : string) :
  current_transaction (user_data w) = None ->
  save_transaction env (update_of (TextInput text)) w
  = (Raise (KeyError "current_transaction"), w)
  /\ step env (Some GET_DESCRIPTION, w) (TextInput text)
     = (Some GET_DESCRIPTION, w).
Proof.
  intro Hnone.
  assert (Hrun : save_transaction env (update_of (TextInput text)) w
                 = (Raise (KeyError "current_transaction"), w)).
  { unfold save_transaction; cbn [update_of message].
    unfold bind, read, raise. now rewrite Hnone. }
  split; [exact Hrun|].
  unfold step; cbn [handler_for fst snd]. now rewrite Hrun.
Qed.

Lemma edits_app (cs cs' : list call) :
  edits (cs ++ cs') = (edits cs + edits cs')%nat.
Proof. unfold edits. now rewrite filter_app, length_app. Qed.

Lemma sends_app (cs cs' : list call) :
  sends (cs ++ cs') = (sends cs + sends cs')%nat.
Proof. unfold sends. now rewrite filter_app, length_app. Qed.

Ltac count_calls :=
  unfold called, stats_done; cbn [calls];
  rewrite ?edits_app, ?sends_app;
  unfold edits, sends; cbn [filter is_edit is_send length]; lia.

(** The command [/start] in the main menu when a message id is recorded
    and the edit goes through. *)
Lemma entry_command_edit_ok (w : world A) (id r : Z) :
  ledger_ok (user_data w) ->
  message_id (user_data w) = Some id ->
  id <> 0%Z ->
  transport env (length (calls w)) = Done r ->
  let today_str := strftime_Ymd (clock env (reads w)) in
  let text := menu_of env (stats_of (clock env (S (reads w)))
                             (day_opened today_str (user_data w))) in
  step env (Some START_ROUTES, w) EntryCommand
  = (Some START_ROUTES,
     called [bot_edit_message_text id text (Some keyboard)]
       (stats_done today_str w)).
Proof.
  intros Hw Hid Hnz Hr today_str text.
  rewrite (entry_command_run w Hw), Hid, Hr.
  cbn [truthy get_or].
  destruct (Z.eqb_spec id 0); [contradiction|reflexivity].
Qed.

(** C9, as the program has it.  In the main menu, on the command [/start]:
    with a message id recorded, the menu is delivered by one edit of that
    message; when the edit goes through, nothing is sent and the id stays,
    so two commands in a row whose edits go through make two edits (one
    each) and no send; when the edit fails, a new message is sent as a
    reply and its id recorded.  With no message id recorded, a new message
    is sent and its id recorded. *)
Theorem entry_command_policy (w : world A) :
  ledger_ok (user_data w) ->
  let today_str := strftime_Ymd (clock env (reads w)) in
  let text := menu_of env (stats_of (clock env (S (reads w)))
                             (day_opened today_str (user_data w))) in
  let n := length (calls w) in
  let c := step env (Some START_ROUTES, w) EntryCommand in
  (forall id, message_id (user_data w) = Some id -> id <> 0%Z ->
     (forall r, transport env n = Done r ->
        fst c = Some START_ROUTES /\
        calls (snd c)
        = (calls w ++ [bot_edit_message_text id text (Some keyboard)])%list /\
        edits (calls (snd c)) = S (edits (calls w)) /\
        sends (calls (snd c)) = sends (calls w) /\
        message_id (user_data (snd c)) = Some id) /\
     (forall r r', transport env n = Done r -> transport env (S n) = Done r' ->
        let c2 := run env (Some START_ROUTES, w) [EntryCommand; EntryCommand] in
        fst c2 = Some START_ROUTES /\
        edits (calls (snd c2)) = S (S (edits (calls w))) /\
        sends (calls (snd c2)) = sends (calls w) /\
        message_id (user_data (snd c2)) = Some id) /\
     (forall e new, transport env n = Failed e ->
        transport env (S n) = Done new ->
        fst c = Some START_ROUTES /\
        calls (snd c)
        = (calls w ++ [bot_edit_message_text id text (Some keyboard);
                       reply_html text (Some keyboard)])%list /\
        message_id (user_data (snd c)) = Some new)) /\
  (truthy (message_id (user_data w)) = false ->
   forall new, transport env n = Done new ->
     fst c = Some START_ROUTES /\
     calls (snd c) = (calls w ++ [reply_html text (Some keyboard)])%list /\
     message_id (user_data (snd c)) = Some new).
Proof.
  intros Hw today_str text n c.
  pose proof (entry_command_run w Hw) as Hrun.
  fold today_str text n c in Hrun.
  split.
  - intros id Hid Hnz.
    assert (Ht : truthy (message_id (user_data w)) = true).
    { rewrite Hid. simpl. destruct (Z.eqb_spec id 0); [contradiction|reflexivity]. }
    rewrite Ht, Hid in Hrun. cbn [get_or] in Hrun.
    split; [|split].
    + intros r Hr. rewrite Hr in Hrun. rewrite Hrun. cbn [fst snd].
      split; [reflexivity|]. split; [reflexivity|].
      split; [count_calls|]. split; [count_calls|].
      unfold called; cbn [user_data].
      rewrite message_id_stats_done. exact Hid.
    + intros r r' Hr Hr'. unfold run; cbn [fold_left].
      rewrite (entry_command_edit_ok w Hw Hid Hnz Hr).
      fold today_str text.
      set (w' := called [bot_edit_message_text id text (Some keyboard)]
                   (stats_done today_str w)).
      assert (Hw' : ledger_ok (user_data w'))
        by (apply (ledger_ok_stats_done today_str w Hw)).
      assert (Hid' : message_id (user_data w') = Some id)
        by (unfold w', called; cbn [user_data];
            rewrite message_id_stats_done; exact Hid).
      assert (Hn' : transport env (length (calls w')) = Done r').
      { unfold w', called, stats_done; cbn [calls].
        rewrite length_app; cbn [length]. rewrite Nat.add_1_r. exact Hr'. }
      rewrite (entry_command_edit_ok w' Hw' Hid' Hnz Hn'). cbn [fst snd].
      split; [reflexivity|].
      split; [unfold w'; count_calls|]. split; [unfold w'; count_calls|].
      unfold called at 1; cbn [user_data].
      rewrite message_id_stats_done. exact Hid'.
    + intros e new He Hnew. rewrite He, Hnew in Hrun. rewrite Hrun.
      cbn [fst snd]. split; [reflexivity|]. split; reflexivity.
  - intros Hf new Hnew. rewrite Hf, Hnew in Hrun. rewrite Hrun.
    cbn [fst snd]. split; [reflexivity|]. split; reflexivity.
Qed.

Lemma ledger_committed (now : datetime) (text : string) (t : transaction A)
    (d : dict A) :
  ledger (committed now text t d)
  = (ledger d ++ [set_date (isoformat now) (set_description text t)])%list.
Proof. reflexivity. Qed.

Lemma ledger_ok_committed (now : datetime) (text : string) (t : transaction A)
    (d : dict A) :
  ledger_ok d -> has_amount t -> ledger_ok (committed now text t d).
Proof.
  intros Hd Ht. unfold ledger_ok. rewrite ledger_committed.
  apply Forall_app. split; [exact Hd|].
  constructor; [exact Ht|constructor].
Qed.

(** The commit, whenever the stats computation of the new menu goes
    through: the handler ends with one attempt to send the new menu. *)
Lemma commit_run (text : string) (t : transaction A) (w : world A) :
  let wb := before_new_menu env text t w in
  let today_str := strftime_Ymd (clock env (S (reads w))) in
  let menu := menu_of env (stats_of (clock env (S (S (reads w))))
                             (day_opened today_str (user_data wb))) in
  let w2 := stats_done today_str wb in
  current_transaction (user_data w) = Some t ->
  ledger_ok (day_opened today_str (user_data wb)) ->
  save_transaction env (update_of (TextInput text)) w
  = match transport env (length (calls wb)) with
    | Done new =>
        (Ok START_ROUTES,
         with_user_data (set_message_id (Some new) (user_data w2))
           (called [bot_send_message menu (Some keyboard)] w2))
    | Failed e =>
        (Raise (TelegramError e),
         called [bot_send_message menu (Some keyboard)] w2)
    end.
Proof.
  intros wb today_str menu w2 Ht Hok.
  rewrite (save_transaction_run text w Ht). fold wb.
  rewrite (start_run MockUpdate wb Hok).
  change (strftime_Ymd (clock env (reads wb))) with today_str.
  change (clock env (S (reads wb))) with (clock env (S (S (reads w)))).
  fold menu w2.
  rewrite deliver_new; [reflexivity|reflexivity|].
  unfold w2. rewrite message_id_stats_done. reflexivity.
Qed.

(** C4 (commit).  In the description stage, with a pending transaction
    that has its amount, on a dictionary whose transactions carry theirs,
    and when the send of the new menu is answered with the message [new]:
    the text becomes the description and the time of the commit the date of
    the transaction; the transaction is appended to the list of the day
    before the menu is made; the pending transaction is dropped; the old
    menu message, when there is one, is deleted, whatever the answer to
    that call; the menu is made from the stats of the committed dictionary
    and sent as a new message, with no edit, and the id of that message is
    recorded; the conversation is in the main menu.  On a day already
    opened the dictionary ends with the transaction in its list. *)
Theorem commit_transition (w : world A) (t : transaction A) (a : A)
    (text : string) (new : Z) :
  current_transaction (user_data w) = Some t ->
  amount t = Some a ->
  ledger_ok (user_data w) ->
  let wb := before_new_menu env text t w in
  transport env (length (calls wb)) = Done new ->
  let tx := {| type := type t; amount := Some a; description := Some text;
               date := Some (isoformat (clock env (reads w))) |} in
  let today_str := strftime_Ymd (clock env (S (reads w))) in
  let menu := menu_of env (stats_of (clock env (S (S (reads w))))
                             (day_opened today_str (user_data wb))) in
  let c := step env (Some GET_DESCRIPTION, w) (TextInput text) in
  fst c = Some START_ROUTES /\
  ledger (user_data wb) = (ledger (user_data w) ++ [tx])%list /\
  current_transaction (user_data wb) = None /\
  message_id (user_data wb) = None /\
  user_data (snd c)
  = set_message_id (Some new) (user_data (stats_done today_str wb)) /\
  current_transaction (user_data (snd c)) = None /\
  message_id (user_data (snd c)) = Some new /\
  calls (snd c)
  = (calls w
     ++ (if truthy (message_id (user_data w))
         then [bot_delete_message (get_or (message_id (user_data w)) 0%Z)]
         else [])
     ++ [bot_send_message menu (Some keyboard)])%list /\
  edits (calls (snd c)) = edits (calls w) /\
  (new_day (user_data w) today_str = false ->
   ledger (user_data (snd c)) = (ledger (user_data w) ++ [tx])%list /\
   balance_end_day (user_data (snd c))
   = Some (sub (add (get_or (balance_start_day (user_data w)) zero)
                    (sum_of income (ledger (user_data w) ++ [tx])))
               (sum_of expense (ledger (user_data w) ++ [tx])))).
Proof.
  intros Ht Ha Hw wb Hsend tx today_str menu c.
  assert (Hamt : has_amount t) by (unfold has_amount; congruence).
  assert (Htx : set_date (isoformat (clock env (reads w)))
                  (set_description text t) = tx).
  { unfold tx, set_date, set_description; cbn. now rewrite Ha. }
  assert (Hok : ledger_ok (day_opened today_str (user_data wb))).
  { apply ledger_ok_day_opened. unfold wb, before_new_menu; cbn [user_data].
    now apply ledger_ok_committed. }
  assert (Hc : c = (Some START_ROUTES,
                    with_user_data
                      (set_message_id (Some new)
                         (user_data (stats_done today_str wb)))
                      (called [bot_send_message menu (Some keyboard)]
                         (stats_done today_str wb)))).
  { unfold c, step; cbn [handler_for fst snd].
    rewrite (commit_run text w Ht Hok). fold wb. now rewrite Hsend. }
  assert (Hledger : ledger (user_data wb) = (ledger (user_data w) ++ [tx])%list).
  { unfold wb, before_new_menu; cbn [user_data].
    now rewrite ledger_committed, Htx. }
  rewrite Hc; cbn [fst snd].
  split; [reflexivity|]. split; [exact Hledger|].
  do 3 (split; [reflexivity|]).
  split.
  { unfold stats_done, day_opened; cbn [user_data with_user_data called].
    destruct (new_day (user_data wb) today_str); reflexivity. }
  split; [reflexivity|].
  split.
  { unfold with_user_data, called, stats_done, wb, before_new_menu,
      cleanup_calls; cbn [calls]. now rewrite <- app_assoc. }
  split.
  { unfold with_user_data, called, stats_done, wb, before_new_menu,
      cleanup_calls; cbn [calls].
    rewrite !edits_app.
    destruct (truthy (message_id (user_data w)));
      unfold edits; cbn [filter is_edit length]; lia. }
  intro Hday.
  assert (Hopen : day_opened today_str (user_data wb) = user_data wb).
  { unfold day_opened.
    replace (new_day (user_data wb) today_str) with false
      by (symmetry; exact Hday).
    reflexivity. }
  unfold with_user_data, stats_done; cbn [user_data]. rewrite Hopen.
  split.
  - change (ledger (user_data wb) = (ledger (user_data w) ++ [tx])%list).
    exact Hledger.
  - change (Some (closing (user_data wb))
            = Some (sub (add (get_or (balance_start_day (user_data w)) zero)
                             (sum_of income (ledger (user_data w) ++ [tx])))
                        (sum_of expense (ledger (user_data w) ++ [tx])))).
    unfold closing. rewrite Hledger. reflexivity.
Qed.

(** A commit whose new menu finds a new day. *)
Lemma commit_on_new_day (text : string) (t : transaction A) (w : world A) :
  current_transaction (user_data w) = Some t ->
  new_day (user_data w) (strftime_Ymd (clock env (S (reads w)))) = true ->
  snd (step env (Some GET_DESCRIPTION, w) (TextInput text))
  = new_day_commit env w.
Proof.
  intros Ht Hday.
  set (today_str := strftime_Ymd (clock env (S (reads w)))) in *.
  set (wb := before_new_menu env text t w).
  assert (Hopen : day_opened today_str (user_data wb)
                  = rollover today_str
                      (set_current_transaction None
                         (set_message_id None (user_data w)))).
  { unfold day_opened.
    replace (new_day (user_data wb) today_str) with true
      by (symmetry; exact Hday).
    reflexivity. }
  assert (Hok : ledger_ok (day_opened today_str (user_data wb)))
    by (rewrite Hopen; constructor).
  unfold step; cbn [handler_for fst snd].
  rewrite (commit_run text w Ht Hok).
  fold wb today_str. unfold stats_done. rewrite Hopen.
  unfold new_day_commit, menu_of. fold today_str.
  change (calls wb) with (calls w ++ cleanup_calls (user_data w))%list.
  destruct (transport env (length (calls w ++ cleanup_calls (user_data w))));
    reflexivity.
Qed.

(** C10 (commit across midnight).  When the new menu after a commit finds
    that ['last_update'] is not the date of the day, the transaction has
    been appended to the list of the day when the menu is made, and the
    stats computation of the menu then opens the new day: the list is left
    empty, the opening and closing balances are both the closing balance
    stored before, and the whole outcome (dictionary, calls, log) is the
    same whatever the transaction and its description were.  The lost
    transaction enters no total and no balance. *)
Theorem cross_midnight_commit_lost (w : world A) (t : transaction A)
    (text : string) :
  current_transaction (user_data w) = Some t ->
  let today_str := strftime_Ymd (clock env (S (reads w))) in
  last_update (user_data w) <> Some today_str ->
  let tx := set_date (isoformat (clock env (reads w)))
              (set_description text t) in
  let wb := before_new_menu env text t w in
  let c := step env (Some GET_DESCRIPTION, w) (TextInput text) in
  let opening := get_or (balance_end_day (user_data w)) zero in
  save_transaction env (update_of (TextInput text)) w
  = start env MockUpdate wb /\
  ledger (user_data wb) = (ledger (user_data w) ++ [tx])%list /\
  transactions_today (user_data (snd c)) = Some [] /\
  balance_start_day (user_data (snd c)) = Some opening /\
  balance_end_day (user_data (snd c)) = Some (sub (add opening zero) zero) /\
  last_update (user_data (snd c)) = Some today_str /\
  current_transaction (user_data (snd c)) = None /\
  forall (t' : transaction A) (text' : string),
    snd (step env
           (Some GET_DESCRIPTION,
            with_user_data (set_current_transaction (Some t') (user_data w)) w)
           (TextInput text'))
    = snd c.
Proof.
  intros Ht today_str Hdate tx wb c opening.
  apply new_day_true in Hdate.
  split; [exact (save_transaction_run text w Ht)|].
  split; [reflexivity|].
  assert (Hc : snd c = new_day_commit env w)
    by (exact (commit_on_new_day text w Ht Hdate)).
  rewrite Hc.
  assert (Hfields :
            transactions_today (user_data (new_day_commit env w)) = Some [] /\
            balance_start_day (user_data (new_day_commit env w)) = Some opening /\
            balance_end_day (user_data (new_day_commit env w))
            = Some (sub (add opening zero) zero) /\
            last_update (user_data (new_day_commit env w)) = Some today_str /\
            current_transaction (user_data (new_day_commit env w)) = None).
  { unfold new_day_commit.
    destruct (transport env (length (calls w ++ cleanup_calls (user_data w))));
      repeat split; reflexivity. }
  destruct Hfields as (F1 & F2 & F3 & F4 & F5).
  do 5 (split; [assumption|]).
  intros t' text'.
  set (w' := with_user_data (set_current_transaction (Some t') (user_data w)) w).
  assert (Ht' : current_transaction (user_data w') = Some t') by reflexivity.
  assert (Hdate' : new_day (user_data w')
                     (strftime_Ymd (clock env (S (reads w')))) = true)
    by exact Hdate.
  rewrite (commit_on_new_day text' w' Ht' Hdate'). reflexivity.
Qed.

(** The amount step on a text that [float] converts. *)
Lemma amount_step (w : world A) (t : transaction A) (a : A) (text : string) :
  float text = Some a ->
  current_transaction (user_data w) = Some t ->
  step env (Some GET_AMOUNT, w) (TextInput text)
  = (match transport env (length (calls w)) with
     | Done _ => Some GET_DESCRIPTION
     | Failed _ => Some GET_AMOUNT
     end,
     called [reply_text enter_description]
       (with_user_data
          (set_current_transaction (Some (set_amount a t)) (user_data w)) w)).
Proof.
  intros Hparse Ht.
  unfold step; cbn [handler_for fst snd].
  unfold ask_for_description; cbn [update_of message].
  rewrite Hparse. unfold bind at 1, read. rewrite Ht.
  unfold bind, modify, api, ret, called, with_user_data; cbn.
  destruct (transport env (length (calls w))); reflexivity.
Qed.

(** C7, as the program has it.  The amount step has one test, that [float]
    converts the text; there is no test of the sign.  Whatever number
    [float] returns, positive or not, becomes the amount of the pending
    transaction, and the commit that follows puts the transaction with
    that very amount in the list of the day. *)
Theorem amount_stored_as_typed (w : world A) (t : transaction A) (a : A)
    (text descr : string) :
  float text = Some a ->
  current_transaction (user_data w) = Some t ->
  ledger_ok (user_data w) ->
  let c1 := step env (Some GET_AMOUNT, w) (TextInput text) in
  let tx := {| type := type t; amount := Some a; description := Some descr;
               date := Some (isoformat (clock env (reads w))) |} in
  let today_str := strftime_Ymd (clock env (S (reads w))) in
  let c2 := step env (Some GET_DESCRIPTION, snd c1) (TextInput descr) in
  current_transaction (user_data (snd c1)) = Some (set_amount a t) /\
  (forall r, transport env (length (calls w)) = Done r ->
             fst c1 = Some GET_DESCRIPTION) /\
  (new_day (user_data w) today_str = false ->
   ledger (user_data (snd c2)) = (ledger (user_data w) ++ [tx])%list).
Proof.
  intros Hparse Ht Hw c1 tx today_str c2.
  pose proof (amount_step w text Hparse Ht) as H1. fold c1 in H1.
  set (w1 := called [reply_text enter_description]
               (with_user_data
                  (set_current_transaction (Some (set_amount a t))
                     (user_data w)) w)) in *.
  assert (Hw1 : snd c1 = w1) by now rewrite H1.
  split; [now rewrite Hw1|].
  split; [intros r Hr; rewrite H1, Hr; reflexivity|].
  intro Hday. unfold c2. rewrite Hw1.
  set (wb := before_new_menu env descr (set_amount a t) w1).
  assert (Ht1 : current_transaction (user_data w1) = Some (set_amount a t))
    by reflexivity.
  assert (Hopen : day_opened today_str (user_data wb) = user_data wb).
  { unfold day_opened.
    replace (new_day (user_data wb) today_str) with false
      by (symmetry; exact Hday).
    reflexivity. }
  assert (Hledger : ledger (user_data wb) = (ledger (user_data w) ++ [tx])%list)
    by reflexivity.
  assert (Hok : ledger_ok (day_opened today_str (user_data wb))).
  { rewrite Hopen. unfold ledger_ok. rewrite Hledger.
    apply Forall_app; split; [exact Hw|].
    constructor; [|constructor]. unfold has_amount, tx; cbn. congruence. }
  unfold step; cbn [handler_for fst snd].
  rewrite (commit_run descr w1 Ht1 Hok). fold wb.
  change (strftime_Ymd (clock env (S (reads w1)))) with today_str.
  unfold stats_done. rewrite Hopen.
  destruct (transport env (length (calls wb))); exact Hledger.
Qed.

End Dialogue.

(** * The theorems at work on concrete days *)

Lemma today_open_ok : ledger_ok (user_data Scenario.today_open).
Proof. repeat constructor; discriminate. Qed.

(** [conservation] on 7 March: a salary of 150.00 appended to the open day
    gives a closing balance of 50.00 + 150.00 - 12.50. *)
Lemma conservation_witness :
  ledger_ok (user_data Scenario.today_open) /\
  Forall has_amount [Scenario.salary] /\
  exists st w',
    get_user_stats Scenario.quiet
      (with_user_data
         (append_transactions [Scenario.salary]
            (user_data Scenario.today_open))
         Scenario.today_open)
    = (Ok st, w') /\
    balance_end_day (user_data w') = Some (balance_end st) /\
    balance_end st = 18750%Z.
Proof.
  assert (H1 : ledger_ok (user_data Scenario.today_open))
    by (repeat constructor; discriminate).
  assert (H2 : Forall has_amount [Scenario.salary])
    by (repeat constructor; discriminate).
  split; [exact H1|]. split; [exact H2|].
  destruct (@conservation Z Cents.cents Scenario.quiet Scenario.today_open
              [Scenario.salary] H1 H2)
    as (st & w' & Hrun & Hend & _).
  exists st, w'. split; [exact Hrun|]. split; [exact Hend|].
  vm_compute in Hrun. injection Hrun as Hst _. rewrite <- Hst. reflexivity.
Defined.

(** [stats_idempotent] on the open day. *)
Lemma stats_idempotent_witness :
  ledger_ok (user_data Scenario.today_open) /\
  (forall i, (i < 4)%nat ->
             same_day (clock Scenario.quiet (i + reads Scenario.today_open))
               (clock Scenario.quiet (reads Scenario.today_open))) /\
  exists st w1 w2,
    get_user_stats Scenario.quiet Scenario.today_open = (Ok st, w1) /\
    get_user_stats Scenario.quiet w1 = (Ok st, w2) /\
    user_data w2 = user_data w1.
Proof.
  assert (H1 : ledger_ok (user_data Scenario.today_open))
    by (repeat constructor; discriminate).
  assert (H2 : forall i, (i < 4)%nat ->
                 same_day (clock Scenario.quiet (i + reads Scenario.today_open))
                   (clock Scenario.quiet (reads Scenario.today_open)))
    by (intros i _; repeat split).
  split; [exact H1|]. split; [exact H2|].
  destruct (@stats_idempotent Z Cents.cents Scenario.quiet Scenario.today_open
              H1 H2)
    as (st & w1 & w2 & R1 & R2 & Hsame & _).
  exists st, w1, w2. repeat split; assumption.
Defined.

(** [rollover_correct] on the morning after: the day before closed at
    50.00, so the day opens at 50.00 with no transaction. *)
Lemma rollover_correct_witness :
  last_update (user_data Scenario.yesterday)
  <> Some (strftime_Ymd (clock Scenario.quiet (reads Scenario.yesterday))) /\
  exists st w',
    get_user_stats Scenario.quiet Scenario.yesterday = (Ok st, w') /\
    balance_start st = 5000%Z /\
    transactions st = [] /\
    balance_start_day (user_data w') = Some 5000%Z /\
    transactions_today (user_data w') = Some [] /\
    last_update (user_data w') = Some "2026-03-07".
Proof.
  assert (H1 : last_update (user_data Scenario.yesterday)
               <> Some (strftime_Ymd
                          (clock Scenario.quiet (reads Scenario.yesterday))))
    by (vm_compute; discriminate).
  split; [exact H1|].
  destruct (@rollover_correct Z Cents.cents Scenario.quiet Scenario.yesterday H1)
    as (st & w' & Hrun & Hstart & Hempty & Hdate & Hbs & Hts & _).
  exists st, w'. repeat split; assumption.
Defined.

(** [menu_shows_last_five] on seven transactions: the third to the seventh
    are shown, the sixth, which has no description, under the label. *)
Lemma menu_shows_last_five_witness :
  Forall has_amount (transactions Scenario.seven_stats) /\
  (exists hidden shown lines,
     transactions Scenario.seven_stats = (hidden ++ shown)%list /\
     length shown = 5%nat /\
     Forall2 is_line_of shown lines /\
     menu_text Scenario.quiet Scenario.seven_stats
     = Ok (header Scenario.quiet Scenario.seven_stats
           ++ String.concat "" lines)) /\
  menu_text Scenario.quiet Scenario.seven_stats
  = Ok (header Scenario.quiet Scenario.seven_stats
        ++ "🔻 3.00 - item" ++ nl
        ++ "✅ 4.00 - item" ++ nl
        ++ "🔻 5.00 - item" ++ nl
        ++ "✅ 6.00 - без описания" ++ nl
        ++ "🔻 7.00 - item" ++ nl).
Proof.
  assert (H1 : Forall has_amount (transactions Scenario.seven_stats))
    by (repeat constructor; discriminate).
  split; [exact H1|].
  destruct (@menu_shows_last_five Z Cents.cents Scenario.quiet
              Scenario.seven_stats H1)
    as (hidden & shown & lines & Hsplit & Hlen & Hlines & Htext).
  split.
  - exists hidden, shown, lines. repeat split; assumption.
  - vm_compute. reflexivity.
Defined.

(** C8 fails on the program: a description that is present and empty is
    shown as nothing; the label is not put in its place. *)
Lemma empty_description_not_labelled :
  description Scenario.blank = Some "" /\
  menu_text Scenario.quiet Scenario.blank_stats
  = Ok (header Scenario.quiet Scenario.blank_stats ++ "✅ 1.00 - " ++ nl) /\
  menu_text Scenario.quiet Scenario.blank_stats
  <> Ok (header Scenario.quiet Scenario.blank_stats
         ++ "✅ 1.00 - без описания" ++ nl).
Proof.
  split; [reflexivity|]. split; [vm_compute; reflexivity|].
  intro Hlabel. apply (f_equal get_or_text) in Hlabel.
  cbn [get_or_text] in Hlabel. revert Hlabel.
  apply String.eqb_neq. vm_compute. reflexivity.
Qed.

(** [parse_failure_loop] on the text [abc]. *)
Lemma parse_failure_loop_witness :
  float "abc" = (None : option Z) /\
  step Scenario.quiet (Some GET_AMOUNT, Scenario.awaiting_amount)
    (TextInput "abc")
  = (Some GET_AMOUNT,
     called [reply_text not_a_number] Scenario.awaiting_amount) /\
  user_data
    (snd (step Scenario.quiet (Some GET_AMOUNT, Scenario.awaiting_amount)
            (TextInput "abc")))
  = user_data Scenario.awaiting_amount.
Proof.
  assert (H1 : float "abc" = (None : option Z)) by reflexivity.
  split; [exact H1|].
  destruct (@parse_failure_loop Z Cents.cents Scenario.quiet
              Scenario.awaiting_amount "abc" H1) as (Hstep & Hdata & _).
  split; assumption.
Defined.

(** [commit_transition] at the end of the dialogue of a new user: add
    income, 150, salary. *)
Lemma commit_transition_witness :
  current_transaction (user_data Scenario.awaiting_description)
  = Some Scenario.pending_salary /\
  amount Scenario.pending_salary = Some 15000%Z /\
  ledger_ok (user_data Scenario.awaiting_description) /\
  transport Scenario.quiet
    (length (calls (before_new_menu Scenario.quiet "salary"
                      Scenario.pending_salary Scenario.awaiting_description)))
  = Done 105%Z /\
  fst Scenario.salary_committed = Some START_ROUTES /\
  current_transaction (user_data (snd Scenario.salary_committed)) = None /\
  message_id (user_data (snd Scenario.salary_committed)) = Some 105%Z /\
  edits (calls (snd Scenario.salary_committed))
  = edits (calls Scenario.awaiting_description) /\
  ledger (user_data (snd Scenario.salary_committed))
  = [{| type := income; amount := Some 15000%Z; description := Some "salary";
        date := Some "2026-03-07T12:00:00+05:00" |}] /\
  balance_end_day (user_data (snd Scenario.salary_committed)) = Some 15000%Z.
Proof.
  set (t := Scenario.pending_salary).
  unfold Scenario.salary_committed.
  set (c := step Scenario.quiet
              (Some GET_DESCRIPTION, Scenario.awaiting_description)
              (TextInput "salary")).
  assert (H1 : current_transaction (user_data Scenario.awaiting_description)
               = Some t) by (vm_compute; reflexivity).
  assert (H2 : amount t = Some 15000%Z) by reflexivity.
  assert (H3 : ledger_ok (user_data Scenario.awaiting_description))
    by (vm_compute; constructor).
  assert (H4 : transport Scenario.quiet
                 (length (calls (before_new_menu Scenario.quiet "salary" t
                                   Scenario.awaiting_description)))
               = Done 105%Z) by (vm_compute; reflexivity).
  do 4 (split; [assumption|]).
  destruct (@commit_transition Z Cents.cents Scenario.quiet
              Scenario.awaiting_description t 15000%Z "salary" 105%Z
              H1 H2 H3 H4)
    as (Hstage & _ & _ & _ & _ & Hpending & Hid & _ & Hedits & Hday).
  do 4 (split; [assumption|]).
  destruct Hday as (Hledger & Hend); [vm_compute; reflexivity|].
  unfold c. split.
  - rewrite Hledger. vm_compute. reflexivity.
  - rewrite Hend. vm_compute. reflexivity.
Defined.

(** [missing_pending_raises] on the open day, where nothing is pending. *)
Lemma missing_pending_raises_witness :
  current_transaction (user_data Scenario.today_open) = None /\
  step Scenario.quiet (Some GET_DESCRIPTION, Scenario.today_open)
    (TextInput "salary")
  = (Some GET_DESCRIPTION, Scenario.today_open).
Proof.
  assert (H1 : current_transaction (user_data Scenario.today_open) = None)
    by reflexivity.
  split; [exact H1|].
  exact (proj2 (@missing_pending_raises Z Cents.cents Scenario.quiet
                  Scenario.today_open "salary" H1)).
Defined.

(** C6 fails on the program: with nothing pending, a text in the
    description stage does not bring the conversation back to the main
    menu and no menu is made. *)
Lemma missing_pending_no_reset :
  ~ (fst Scenario.nothing_pending = Some START_ROUTES
     /\ sends (calls (snd Scenario.nothing_pending))
        = S (sends (calls Scenario.today_open))).
Proof.
  vm_compute. intros [Hstage _]. discriminate.
Qed.

(** [amount_stored_as_typed] on the text [-5]. *)
Lemma amount_stored_as_typed_witness :
  float "-5" = Some (-500)%Z /\
  current_transaction (user_data Scenario.awaiting_amount)
  = Some Scenario.pending_income /\
  ledger_ok (user_data Scenario.awaiting_amount) /\
  current_transaction (user_data (snd Scenario.minus_five))
  = Some (set_amount (-500)%Z Scenario.pending_income) /\
  fst Scenario.minus_five = Some GET_DESCRIPTION /\
  ledger (user_data (snd Scenario.refund_committed))
  = [{| type := income; amount := Some (-500)%Z; description := Some "refund";
        date := Some "2026-03-07T12:00:00+05:00" |}].
Proof.
  set (t := Scenario.pending_income).
  unfold Scenario.refund_committed, Scenario.minus_five.
  set (c1 := step Scenario.quiet (Some GET_AMOUNT, Scenario.awaiting_amount)
               (TextInput "-5")).
  set (c2 := step Scenario.quiet (Some GET_DESCRIPTION, snd c1)
               (TextInput "refund")).
  assert (H1 : float "-5" = Some (-500)%Z) by reflexivity.
  assert (H2 : current_transaction (user_data Scenario.awaiting_amount)
               = Some t) by (vm_compute; reflexivity).
  assert (H3 : ledger_ok (user_data Scenario.awaiting_amount))
    by (vm_compute; constructor).
  do 3 (split; [assumption|]).
  destruct (@amount_stored_as_typed Z Cents.cents Scenario.quiet
              Scenario.awaiting_amount t (-500)%Z "-5" "refund" H1 H2 H3)
    as (Hpending & Hstage & Hledger).
  split; [exact Hpending|].
  split; [apply (Hstage 103%Z); vm_compute; reflexivity|].
  unfold c2, c1. rewrite Hledger; [|vm_compute; reflexivity].
  vm_compute. reflexivity.
Defined.

(** C7 fails on the program: the dialogue that enters [-5] ends with a
    transaction of amount -5.00 in the list of the day. *)
Lemma negative_amount_committed :
  ~ Forall (fun t => exists a, amount t = Some a /\ (0 < a)%Z)
      (ledger (user_data
                 (snd (run Scenario.quiet (None, Scenario.fresh)
                         Scenario.refund_dialogue)))).
Proof.
  vm_compute. intro Hall. inversion Hall as [|t ts (a & Ha & Hpos) _].
  injection Ha as <-. discriminate Hpos.
Qed.

(** [entry_command_policy] on the open day, whose menu is message 7: one
    edit and no send for one command, two edits and no send for two. *)
Lemma entry_command_policy_witness :
  ledger_ok (user_data Scenario.today_open) /\
  edits (calls (snd Scenario.start_once)) = 1%nat /\
  sends (calls (snd Scenario.start_once)) = 0%nat /\
  message_id (user_data (snd Scenario.start_once)) = Some 7%Z /\
  edits (calls (snd Scenario.start_twice)) = 2%nat /\
  sends (calls (snd Scenario.start_twice)) = 0%nat.
Proof.
  assert (H1 : ledger_ok (user_data Scenario.today_open))
    by exact today_open_ok.
  split; [exact H1|].
  destruct (@entry_command_policy Z Cents.cents Scenario.quiet
              Scenario.today_open H1) as (Hpresent & _).
  destruct (Hpresent 7%Z eq_refl ltac:(discriminate))
    as (Hone & Htwo & _).
  destruct (Hone 100%Z eq_refl) as (_ & _ & Hedits & Hsends & Hid).
  destruct (Htwo 100%Z 101%Z eq_refl eq_refl) as (_ & Hedits2 & Hsends2 & _).
  repeat split; assumption.
Defined.

(** C9 fails on the program: with message 7 recorded as the menu, a
    command whose edit is refused ends with a new message sent and
    recorded. *)
Lemma edit_refused_sends_new :
  message_id (user_data Scenario.today_open) = Some 7%Z /\
  ~ (edits (calls (snd Scenario.start_refused)) = 1%nat
     /\ sends (calls (snd Scenario.start_refused)) = 0%nat) /\
  sends (calls (snd Scenario.start_refused)) = 1%nat /\
  message_id (user_data (snd Scenario.start_refused)) = Some 101%Z.
Proof.
  vm_compute. repeat split; try reflexivity.
  intros [_ Hsends]. discriminate.
Qed.

(** [cross_midnight_commit_lost] on a dialogue begun on 6 March and ended
    on 7 March: the salary is in no list and in no balance. *)
Lemma cross_midnight_commit_lost_witness :
  current_transaction (user_data Scenario.begun_yesterday)
  = Some Scenario.pending_salary /\
  last_update (user_data Scenario.begun_yesterday)
  <> Some (strftime_Ymd
             (clock Scenario.quiet (S (reads Scenario.begun_yesterday)))) /\
  transactions_today (user_data (snd Scenario.salary_after_midnight))
  = Some [] /\
  balance_start_day (user_data (snd Scenario.salary_after_midnight))
  = Some 5000%Z /\
  balance_end_day (user_data (snd Scenario.salary_after_midnight))
  = Some 5000%Z /\
  last_update (user_data (snd Scenario.salary_after_midnight))
  = Some "2026-03-07".
Proof.
  set (t := Scenario.pending_salary).
  assert (H1 : current_transaction (user_data Scenario.begun_yesterday)
               = Some t) by reflexivity.
  assert (H2 : last_update (user_data Scenario.begun_yesterday)
               <> Some (strftime_Ymd
                          (clock Scenario.quiet
                             (S (reads Scenario.begun_yesterday)))))
    by (vm_compute; discriminate).
  do 2 (split; [assumption|]).
  destruct (@cross_midnight_commit_lost Z Cents.cents Scenario.quiet
              Scenario.begun_yesterday t "salary" H1 H2)
    as (_ & _ & Hts & Hstart & Hend & Hdate & _).
  repeat split; assumption.
Defined.

(** * Further properties of the handlers and of whole conversations *)

Section Conversation.

Context {A : Type} `{Number A}.
Variable env : environment.

(** ** The table of the conversation (lines 209-223) *)

(** X1.  Updates with no entry in the table change nothing: before the
    first [/start] every button and text; in the main menu every text and
    every button whose data does not match the pattern; while an amount or
    a description is awaited every button. *)
Theorem unhandled_updates_ignored (conv : option stage) (w : world A)
    (ev : event) :
  (conv = None /\ ev <> EntryCommand) \/
  (conv = Some START_ROUTES /\ exists text, ev = TextInput text) \/
  (conv = Some START_ROUTES /\
   exists data, ev = ButtonPress data /\ pattern data = false) \/
  ((conv = Some GET_AMOUNT \/ conv = Some GET_DESCRIPTION) /\
   exists data, ev = ButtonPress data) ->
  step env (conv, w) ev = (conv, w).
Proof.
  unfold step.
  intros [(-> & Hev)|[(-> & text & ->)|[(-> & data & -> & Hpat)
                                       |([-> | ->] & data & ->)]]];
    cbn [handler_for fst snd]; try reflexivity.
  - destruct ev; [contradiction|reflexivity|reflexivity].
  - now rewrite Hpat.
Qed.

(** ** [ask_for_amount] *)

Lemma ask_for_amount_run (data : string) (w : world A) :
  let w1 := with_user_data
              (set_current_transaction (Some (fresh_pending data))
                 (user_data w)) w in
  let n := length (calls w) in
  ask_for_amount env (update_of (ButtonPress data)) w
  = match transport env n with
    | Failed e => (Raise (TelegramError e), called [query_answer] w)
    | Done _ =>
        match transport env (S n) with
        | Done _ =>
            (Ok GET_AMOUNT,
             called [query_answer;
                     query_edit_message_text (amount_prompt data) None] w1)
        | Failed e =>
            (Raise (TelegramError e),
             called [query_answer;
                     query_edit_message_text (amount_prompt data) None] w1)
        end
    end.
Proof.
  intros w1 n.
  unfold ask_for_amount; cbn [update_of callback_query].
  unfold bind, api, modify, ret, called, with_user_data, w1, n,
    fresh_pending, amount_prompt; cbn [calls user_data reads log].
  destruct (transport env (length (calls w))); [|reflexivity].
  cbn [calls user_data reads log].
  rewrite length_app; cbn [length]. rewrite Nat.add_1_r.
  destruct (String.eqb data ADD_INCOME); cbn [kind_eqb];
    destruct (transport env (S (length (calls w))));
    rewrite <- app_assoc; reflexivity.
Qed.

(** X2.  A button of the menu starts a new pending transaction that has
    the type of the button and nothing else: whatever was pending before,
    amount and description included, is replaced.  The list of the day,
    the balances, the date and the message id are untouched.  When both
    calls are answered the conversation awaits the amount; when the first
    call (the answer to the callback) fails, nothing is stored at all. *)
Theorem button_starts_fresh_pending (data : string) (w : world A) :
  pattern data = true ->
  let c := step env (Some START_ROUTES, w) (ButtonPress data) in
  let n := length (calls w) in
  (forall r, transport env n = Done r ->
     user_data (snd c)
     = set_current_transaction
         (Some {| type := if String.eqb data ADD_INCOME
                          then income else expense;
                  amount := None; description := None; date := None |})
         (user_data w) /\
     (forall r', transport env (S n) = Done r' ->
        fst c = Some GET_AMOUNT /\
        calls (snd c)
        = (calls w ++ [query_answer;
                       query_edit_message_text (amount_prompt data) None])%list)) /\
  (forall e, transport env n = Failed e ->
     fst c = Some START_ROUTES /\ user_data (snd c) = user_data w) /\
  ledger (user_data (snd c)) = ledger (user_data w) /\
  balance_start_day (user_data (snd c)) = balance_start_day (user_data w) /\
  balance_end_day (user_data (snd c)) = balance_end_day (user_data w) /\
  last_update (user_data (snd c)) = last_update (user_data w) /\
  message_id (user_data (snd c)) = message_id (user_data w).
Proof.
  intros Hpat c n.
  assert (Hc : c = match ask_for_amount env (update_of (ButtonPress data)) w with
                   | (Ok s, w') => (Some s, w')
                   | (Raise _, w') => (Some START_ROUTES, w')
                   end).
  { unfold c, step; cbn [handler_for fst snd]. now rewrite Hpat. }
  rewrite ask_for_amount_run in Hc. fold n in Hc.
  split; [|split].
  - intros r Hr. rewrite Hr in Hc.
    split.
    { rewrite Hc. destruct (transport env (S n)); reflexivity. }
    intros r' Hr'. rewrite Hr' in Hc. rewrite Hc. split; reflexivity.
  - intros e He. rewrite He in Hc. rewrite Hc. split; reflexivity.
  - rewrite Hc.
    destruct (transport env n); [destruct (transport env (S n))|];
      repeat split; reflexivity.
Qed.

(** ** What the handlers keep *)

(** Two dictionaries that differ at most in the message id. *)
Lemma deliver_cases (u : update) (text : string) (w : world A) :
  (fst (deliver env u text w) = Ok START_ROUTES
   \/ exists e, fst (deliver env u text w) = Raise e) /\
  (user_data (snd (deliver env u text w)) = user_data w
   \/ exists id, user_data (snd (deliver env u text w))
                 = set_message_id (Some id) (user_data w)).
Proof.
  unfold deliver, bind, read, modify, ret, raise, api, try_except,
    with_user_data.
  cbn [user_data calls reads log].
  destruct (is_some (callback_query u)); cbn [orb].
  - destruct (transport env (length (calls w))); cbn [fst snd user_data calls];
      [|split; eauto].
    destruct (transport env (length (calls w ++ [query_answer])));
      cbn [fst snd user_data]; split; eauto.
  - destruct (truthy (message_id (user_data w))); cbn [negb].
    + destruct (transport env (length (calls w))); cbn [fst snd user_data calls];
        [split; eauto|].
      destruct (is_some (message u)); [|cbn [fst snd user_data]; split; eauto].
      cbn [user_data calls reads log].
      match goal with
      | |- context [transport env ?n] => destruct (transport env n)
      end; cbn [fst snd user_data]; split; eauto.
    + destruct (is_some (message u));
        destruct (transport env (length (calls w)));
        cbn [fst snd user_data]; split; eauto.
Qed.

Lemma current_transaction_stats_done (today_str : string) (w : world A) :
  current_transaction (user_data (stats_done today_str w))
  = current_transaction (user_data w).
Proof.
  unfold stats_done, day_opened; cbn [user_data].
  destruct (new_day (user_data w) today_str); reflexivity.
Qed.

(** [start] on a dictionary whose transactions carry their amounts: the
    stage it returns and the dictionary it leaves. *)
Lemma start_cases (u : update) (w : world A) :
  ledger_ok (user_data w) ->
  let today_str := strftime_Ymd (clock env (reads w)) in
  let d := user_data (stats_done today_str w) in
  (fst (start env u w) = Ok START_ROUTES
   \/ exists e, fst (start env u w) = Raise e) /\
  (user_data (snd (start env u w)) = d
   \/ exists id, user_data (snd (start env u w)) = set_message_id (Some id) d).
Proof.
  intros Hw today_str d.
  rewrite (start_run env u w (ledger_ok_day_opened today_str Hw)).
  apply deliver_cases.
Qed.

(** The amount step on a text that is no number. *)
Lemma retry_step (w : world A) (text : string) :
  float text = None ->
  step env (Some GET_AMOUNT, w) (TextInput text)
  = (Some GET_AMOUNT, called [reply_text not_a_number] w).
Proof.
  intro Hparse.
  unfold step; cbn [handler_for fst snd].
  unfold ask_for_description; cbn [update_of message].
  rewrite Hparse. unfold bind, api, ret, called.
  destruct (transport env (length (calls w))); reflexivity.
Qed.

Lemma amount_no_pending_run (w : world A) (text : string) (a : A) :
  float text = Some a ->
  current_transaction (user_data w) = None ->
  ask_for_description env (update_of (TextInput text)) w
  = (Raise (KeyError "current_transaction"), w).
Proof.
  intros Hparse Hnone.
  unfold ask_for_description; cbn [update_of message].
  rewrite Hparse. unfold bind, read, raise. now rewrite Hnone.
Qed.

(** X3.  A number typed when nothing is pending: [float] converts the
    text, the look-up of ['current_transaction'] raises [KeyError], and
    nothing happens: no call, no change, the amount is still awaited.  (A
    text that is no number gets the retry prompt even then.) *)
Theorem amount_without_pending (w : world A) (text : string) (a : A) :
  float text = Some a ->
  current_transaction (user_data w) = None ->
  ask_for_description env (update_of (TextInput text)) w
  = (Raise (KeyError "current_transaction"), w)
  /\ step env (Some GET_AMOUNT, w) (TextInput text) = (Some GET_AMOUNT, w).
Proof.
  intros Hparse Hnone.
  pose proof (amount_no_pending_run w text Hparse Hnone) as Hrun.
  split; [exact Hrun|].
  unfold step; cbn [handler_for fst snd]. now rewrite Hrun.
Qed.

(** The description step when nothing is pending. *)
Lemma save_without_pending (w : world A) (text : string) :
  current_transaction (user_data w) = None ->
  step env (Some GET_DESCRIPTION, w) (TextInput text)
  = (Some GET_DESCRIPTION, w).
Proof.
  intro Hnone.
  unfold step; cbn [handler_for fst snd].
  unfold save_transaction; cbn [update_of message].
  unfold bind, read, raise. now rewrite Hnone.
Qed.

(** ** An invariant of the conversation *)

Lemma entry_sound (conv : option stage) (w : world A) :
  sound (conv, w) ->
  sound (match start env (update_of EntryCommand) w with
         | (Ok s, w') => (Some s, w')
         | (Raise _, w') => (conv, w')
         end).
Proof.
  intros [Hl Hp]; cbn [fst snd] in Hl, Hp.
  destruct (start_cases (update_of EntryCommand) w Hl) as [Hr Hd].
  set (d := user_data
              (stats_done (strftime_Ymd (clock env (reads w))) w)) in *.
  assert (Hok : ledger_ok d) by (apply ledger_ok_stats_done; exact Hl).
  assert (Hcur : current_transaction d = current_transaction (user_data w))
    by apply current_transaction_stats_done.
  destruct (start env (update_of EntryCommand) w) as [r w'];
    cbn [fst snd] in Hr, Hd.
  assert (Hl' : ledger_ok (user_data w')).
  { destruct Hd as [->|(id & ->)]; exact Hok. }
  assert (Hcur' : current_transaction (user_data w')
                  = current_transaction (user_data w)).
  { destruct Hd as [->|(id & ->)]; exact Hcur. }
  destruct Hr as [->|(e & ->)]; split; cbn [fst snd]; try exact Hl'.
  - intro Hc; discriminate.
  - intros Hc t Ht. apply (Hp Hc t). now rewrite <- Hcur'.
Qed.

Lemma step_sound (c : option stage * world A) (ev : event) :
  sound c -> sound (step env c ev).
Proof.
  destruct c as [conv w]. intro Hs.
  assert (Hl : ledger_ok (user_data w)) by exact (proj1 Hs).
  destruct conv as [[| |]|], ev; try exact Hs;
    try (unfold step; cbn [handler_for fst snd]; now apply entry_sound).
  - (* the menu, a button *)
    unfold step; cbn [handler_for fst snd].
    destruct (pattern data); [|exact Hs].
    rewrite ask_for_amount_run.
    destruct (transport env (length (calls w)));
      [destruct (transport env (S (length (calls w))))|];
      (split; cbn [fst snd]; [exact Hl|intro Hc; discriminate]).
  - (* the amount *)
    destruct (float text) as [a|] eqn:Hparse.
    + destruct (current_transaction (user_data w)) as [t|] eqn:Ht.
      * rewrite (amount_step env w text Hparse Ht).
        split; cbn [fst snd]; [exact Hl|].
        intros _ t' Ht'. cbn in Ht'. injection Ht' as <-.
        unfold has_amount; cbn. discriminate.
      * unfold step; cbn [handler_for fst snd].
        rewrite (amount_no_pending_run w text Hparse Ht).
        split; cbn [fst snd]; [exact Hl|intro Hc; discriminate].
    + rewrite (retry_step w text Hparse).
      split; cbn [fst snd]; [exact Hl|intro Hc; discriminate].
  - (* the description *)
    destruct (current_transaction (user_data w)) as [t|] eqn:Ht.
    + assert (Hamt : has_amount t) by exact (proj2 Hs eq_refl t Ht).
      set (wb := before_new_menu env text t w).
      set (today_str := strftime_Ymd (clock env (S (reads w)))).
      assert (Hwb : ledger_ok (user_data wb))
        by (unfold wb, before_new_menu; cbn [user_data];
            now apply ledger_ok_committed).
      assert (Hok : ledger_ok (day_opened today_str (user_data wb)))
        by now apply ledger_ok_day_opened.
      assert (Hl2 : ledger_ok (user_data (stats_done today_str wb)))
        by (apply ledger_ok_stats_done; exact Hwb).
      assert (Hcur : current_transaction (user_data (stats_done today_str wb))
                     = None)
        by (rewrite current_transaction_stats_done; reflexivity).
      unfold step; cbn [handler_for fst snd].
      rewrite (commit_run env text w Ht Hok). fold wb today_str.
      destruct (transport env (length (calls wb)));
        (split; cbn [fst snd]; [exact Hl2|]);
        intros _ t' Ht';
        change (current_transaction (user_data (stats_done today_str wb))
                = Some t') in Ht';
        rewrite Hcur in Ht'; discriminate.
    + rewrite (save_without_pending w text Ht). exact Hs.
Qed.

Lemma run_sound (evs : list event) :
  forall c : option stage * world A, sound c -> sound (run env c evs).
Proof.
  induction evs as [|ev evs IH]; intros c Hc.
  - exact Hc.
  - apply IH, step_sound, Hc.
Qed.

(** X4.  Whatever updates arrive and whatever the Bot API answers, a
    conversation that starts with every stored transaction carrying its
    amount (and any transaction pending in the description stage carrying
    its own) stays so; hence the stats computation returns, without
    [KeyError], after every sequence of updates. *)
Theorem conversation_keeps_amounts (c : option stage * world A)
    (evs : list event) :
  sound c ->
  sound (run env c evs) /\
  exists st w', get_user_stats env (snd (run env c evs)) = (Ok st, w').
Proof.
  intro Hc. pose proof (run_sound evs Hc) as Hs.
  split; [exact Hs|].
  destruct Hs as [Hl _].
  eexists; eexists.
  apply (get_user_stats_run env (snd (run env c evs))).
  apply ledger_ok_day_opened. exact Hl.
Qed.

(** ** A transaction without its amount *)

Lemma sum_from_cases (k : kind) (ts : list (transaction A)) :
  forall acc,
    (exists x, sum_from acc k ts = Ok x)
    \/ sum_from acc k ts = Raise (KeyError "amount").
Proof.
  induction ts as [|t ts IH]; intro acc; cbn [sum_from].
  - left; eauto.
  - destruct (kind_eqb (type t) k); [|apply IH].
    destruct (amount t); [apply IH|now right].
Qed.

Lemma sum_from_missing (k : kind) (ts : list (transaction A)) :
  Exists (fun t => type t = k /\ amount t = None) ts ->
  forall acc, sum_from acc k ts = Raise (KeyError "amount").
Proof.
  induction 1 as [t ts [Hk Ha]|t ts _ IH]; intro acc; cbn [sum_from].
  - rewrite Hk, Ha. destruct k; reflexivity.
  - destruct (kind_eqb (type t) k); [|apply IH].
    destruct (amount t); [apply IH|reflexivity].
Qed.

Lemma missing_of_some_kind (ts : list (transaction A)) :
  Exists (fun t => amount t = None) ts ->
  Exists (fun t => type t = income /\ amount t = None) ts
  \/ Exists (fun t => type t = expense /\ amount t = None) ts.
Proof.
  induction 1 as [t ts Ha|t ts _ [IH|IH]].
  - destruct (type t) eqn:E; [left|right]; now constructor.
  - left; now constructor 2.
  - right; now constructor 2.
Qed.

Lemma get_user_stats_missing (w : world A) :
  new_day (user_data w) (strftime_Ymd (clock env (reads w))) = false ->
  Exists (fun t => amount t = None) (ledger (user_data w)) ->
  get_user_stats env w = (Raise (KeyError "amount"), one_read w).
Proof.
  intros Hday Hmiss.
  unfold get_user_stats, bind, datetime_now, read, modify, ret, sum_amounts,
    with_user_data, one_read; cbn [user_data calls reads log].
  rewrite Hday. cbn [user_data calls reads log].
  fold (ledger (user_data w)).
  destruct (missing_of_some_kind Hmiss) as [Hi|He].
  - now rewrite (sum_from_missing Hi).
  - destruct (sum_from_cases income (ledger (user_data w)) zero)
      as [(x & ->)| ->]; [|reflexivity].
    now rewrite (sum_from_missing He).
Qed.

(** X5.  On a day already opened, when a stored transaction has no
    amount, the stats computation raises [KeyError('amount')] after its
    first clock read and writes nothing: the closing balance is not
    refreshed.  The command [/start] then makes no call at all and the
    stage of the conversation stays as it was: the menu cannot be shown
    until the day changes. *)
Theorem stats_raise_on_missing_amount (conv : option stage) (w : world A) :
  new_day (user_data w) (strftime_Ymd (clock env (reads w))) = false ->
  Exists (fun t => amount t = None) (ledger (user_data w)) ->
  get_user_stats env w = (Raise (KeyError "amount"), one_read w) /\
  user_data (one_read w) = user_data w /\
  calls (one_read w) = calls w /\
  step env (conv, w) EntryCommand = (conv, one_read w).
Proof.
  intros Hday Hmiss.
  pose proof (get_user_stats_missing w Hday Hmiss) as Hrun.
  split; [exact Hrun|]. split; [reflexivity|]. split; [reflexivity|].
  assert (Hstart : start env (update_of EntryCommand) w
                   = (Raise (KeyError "amount"), one_read w)).
  { unfold start, bind at 1. now rewrite Hrun. }
  unfold step. destruct conv as [[| |]|]; cbn [handler_for fst snd];
    now rewrite Hstart.
Qed.

(** ** One day after another *)

Lemma last_update_day_opened (today_str : string) (d : dict A) :
  last_update (day_opened today_str d) = Some today_str.
Proof.
  unfold day_opened. destruct (new_day d today_str) eqn:E; [reflexivity|].
  unfold new_day in E. destruct (last_update d) as [s|]; [|discriminate].
  destruct (String.eqb_spec s today_str); [congruence|discriminate].
Qed.

(** X6.  The closing balance that one call of the stats computation
    returns is the opening balance that the first call on another date
    returns, with an empty list of transactions: the balance is carried
    from a day to the next read, whatever was entered in between being
    counted in it. *)
Theorem closing_balance_carried_forward (w : world A) :
  ledger_ok (user_data w) ->
  exists st1 w1,
    get_user_stats env w = (Ok st1, w1) /\
    (strftime_Ymd (clock env (reads w1))
     <> strftime_Ymd (clock env (reads w)) ->
     exists st2 w2,
       get_user_stats env w1 = (Ok st2, w2) /\
       balance_start st2 = balance_end st1 /\
       transactions st2 = [] /\
       balance_start_day (user_data w2) = Some (balance_end st1) /\
       transactions_today (user_data w2) = Some []).
Proof.
  intro Hw.
  set (today_str := strftime_Ymd (clock env (reads w))).
  pose proof (get_user_stats_run env w (ledger_ok_day_opened today_str Hw))
    as R1.
  fold today_str in R1.
  eexists; eexists. split; [exact R1|].
  set (w1 := stats_done today_str w).
  set (next := strftime_Ymd (clock env (reads w1))).
  intro Hnext.
  assert (Hnew : new_day (user_data w1) next = true).
  { apply new_day_true.
    change (last_update (user_data w1))
      with (last_update (day_opened today_str (user_data w))).
    rewrite last_update_day_opened. congruence. }
  assert (Hopen : day_opened next (user_data w1) = rollover next (user_data w1))
    by (unfold day_opened; now rewrite Hnew).
  assert (Hok : ledger_ok (day_opened next (user_data w1)))
    by (rewrite Hopen; constructor).
  pose proof (get_user_stats_run env w1 Hok) as R2. fold next in R2.
  unfold stats_done in R2 at 1. rewrite Hopen in R2.
  eexists; eexists. split; [exact R2|].
  repeat split.
Qed.

(** ** [/start] in the middle of a dialogue *)

(** X7.  On a day already opened, the command [/start], in whatever stage
    and whatever the Bot API answers, leaves the list of the day, the
    opening balance, the date and the pending transaction as they were,
    and stores the closing balance computed from them.  The stage becomes
    the main menu, or stays when a call fails.  In particular a dialogue
    abandoned with [/start] commits nothing and keeps its pending
    transaction in the dictionary. *)
Theorem start_keeps_the_books (conv : option stage) (w : world A) :
  ledger_ok (user_data w) ->
  new_day (user_data w) (strftime_Ymd (clock env (reads w))) = false ->
  let c := step env (conv, w) EntryCommand in
  (fst c = Some START_ROUTES \/ fst c = conv) /\
  ledger (user_data (snd c)) = ledger (user_data w) /\
  current_transaction (user_data (snd c)) = current_transaction (user_data w) /\
  balance_start_day (user_data (snd c)) = balance_start_day (user_data w) /\
  last_update (user_data (snd c)) = last_update (user_data w) /\
  balance_end_day (user_data (snd c))
  = Some (sub (add (get_or (balance_start_day (user_data w)) zero)
                   (sum_of income (ledger (user_data w))))
              (sum_of expense (ledger (user_data w)))).
Proof.
  intros Hw Hday c.
  set (today_str := strftime_Ymd (clock env (reads w))) in *.
  assert (Hc : c = match start env (update_of EntryCommand) w with
                   | (Ok s, w') => (Some s, w')
                   | (Raise _, w') => (conv, w')
                   end).
  { unfold c, step. destruct conv as [[| |]|]; reflexivity. }
  destruct (start_cases (update_of EntryCommand) w Hw) as [Hr Hd].
  fold today_str in Hd.
  assert (Hdone : user_data (stats_done today_str w)
                  = set_balance_end_day (Some (closing (user_data w)))
                      (user_data w)).
  { unfold stats_done, day_opened. now rewrite Hday. }
  rewrite Hdone in Hd.
  destruct (start env (update_of EntryCommand) w) as [r w'];
    cbn [fst snd] in Hr, Hd.
  assert (Hstage : fst c = Some START_ROUTES \/ fst c = conv).
  { rewrite Hc. destruct Hr as [->|(e & ->)]; [now left|now right]. }
  split; [exact Hstage|].
  assert (Hsnd : snd c = w') by (rewrite Hc; now destruct r).
  rewrite Hsnd.
  destruct Hd as [->|(id & ->)]; repeat split.
Qed.

(** ** A commit whose new menu cannot be sent *)

(** X8.  When the send of the new menu fails after a commit on a day
    already opened, the transaction is committed all the same and counted
    in the closing balance, the pending transaction and the message id are
    gone, and the conversation stays in the description stage.  Every text
    sent after that raises [KeyError] and changes nothing, until [/start]
    is sent. *)
Theorem commit_with_failed_send (w : world A) (t : transaction A) (a : A)
    (text : string) (e : string) :
  current_transaction (user_data w) = Some t ->
  amount t = Some a ->
  ledger_ok (user_data w) ->
  let today_str := strftime_Ymd (clock env (S (reads w))) in
  new_day (user_data w) today_str = false ->
  let wb := before_new_menu env text t w in
  transport env (length (calls wb)) = Failed e ->
  let tx := {| type := type t; amount := Some a; description := Some text;
               date := Some (isoformat (clock env (reads w))) |} in
  let c := step env (Some GET_DESCRIPTION, w) (TextInput text) in
  fst c = Some GET_DESCRIPTION /\
  ledger (user_data (snd c)) = (ledger (user_data w) ++ [tx])%list /\
  balance_end_day (user_data (snd c))
  = Some (sub (add (get_or (balance_start_day (user_data w)) zero)
                   (sum_of income (ledger (user_data w) ++ [tx])))
              (sum_of expense (ledger (user_data w) ++ [tx]))) /\
  current_transaction (user_data (snd c)) = None /\
  message_id (user_data (snd c)) = None /\
  forall text', step env c (TextInput text') = c.
Proof.
  intros Ht Ha Hw today_str Hday wb Hsend tx c.
  assert (Hamt : has_amount t) by (unfold has_amount; congruence).
  assert (Htx : set_date (isoformat (clock env (reads w)))
                  (set_description text t) = tx).
  { unfold tx, set_date, set_description; cbn. now rewrite Ha. }
  assert (Hopen : day_opened today_str (user_data wb) = user_data wb).
  { unfold day_opened.
    replace (new_day (user_data wb) today_str) with false
      by (symmetry; exact Hday).
    reflexivity. }
  assert (Hok : ledger_ok (day_opened today_str (user_data wb))).
  { rewrite Hopen. unfold wb, before_new_menu; cbn [user_data].
    now apply ledger_ok_committed. }
  assert (Hledger : ledger (user_data wb) = (ledger (user_data w) ++ [tx])%list).
  { unfold wb, before_new_menu; cbn [user_data].
    now rewrite ledger_committed, Htx. }
  assert (Hc : c = (Some GET_DESCRIPTION,
                    called [bot_send_message
                              (menu_of env
                                 (stats_of (clock env (S (S (reads w))))
                                    (user_data wb)))
                              (Some keyboard)]
                      {| user_data := set_balance_end_day
                                        (Some (closing (user_data wb)))
                                        (user_data wb);
                         calls := calls wb; reads := S (S (reads wb));
                         log := log wb |})).
  { unfold c, step; cbn [handler_for fst snd].
    rewrite (commit_run env text w Ht Hok). fold wb today_str.
    rewrite Hsend. unfold stats_done. rewrite Hopen. reflexivity. }
  rewrite Hc; cbn [fst snd].
  split; [reflexivity|].
  split; [exact Hledger|].
  split.
  { change (Some (closing (user_data wb))
            = Some (sub (add (get_or (balance_start_day (user_data w)) zero)
                             (sum_of income (ledger (user_data w) ++ [tx])))
                        (sum_of expense (ledger (user_data w) ++ [tx])))).
    unfold closing. rewrite Hledger. reflexivity. }
  split; [reflexivity|]. split; [reflexivity|].
  intro text'. apply save_without_pending. reflexivity.
Qed.

(** ** Whole dialogues *)

Lemma called_nil (w : world A) : called [] w = w.
Proof. destruct w. unfold called; cbn. now rewrite app_nil_r. Qed.

Lemma called_called (cs cs' : list call) (w : world A) :
  called cs' (called cs w) = called (cs ++ cs') w.
Proof. unfold called; cbn. now rewrite app_assoc. Qed.

Lemma run_app (evs evs' : list event) (c : option stage * world A) :
  run env c (evs ++ evs') = run env (run env c evs) evs'.
Proof. unfold run. apply fold_left_app. Qed.

Lemma retry_run (bads : list string) :
  Forall (fun text => float text = (None : option A)) bads ->
  forall w : world A,
    run env (Some GET_AMOUNT, w) (map TextInput bads)
    = (Some GET_AMOUNT,
       called (map (fun _ => reply_text not_a_number) bads) w).
Proof.
  induction 1 as [|text bads Hbad _ IH]; intro w.
  - cbn. now rewrite called_nil.
  - cbn [map run fold_left].
    rewrite (retry_step w text Hbad).
    change (fold_left (step env) (map TextInput bads)
              (Some GET_AMOUNT, called [reply_text not_a_number] w))
      with (run env (Some GET_AMOUNT, called [reply_text not_a_number] w)
              (map TextInput bads)).
    rewrite IH, called_called. reflexivity.
Qed.

(** X9.  Any number of texts that are no numbers, sent while the amount
    is awaited, leave the amount awaited and the dictionary as it was;
    each of them is answered by one retry prompt and nothing else. *)
Theorem retry_any_number_of_times (bads : list string) (w : world A) :
  Forall (fun text => float text = (None : option A)) bads ->
  let c := run env (Some GET_AMOUNT, w) (map TextInput bads) in
  fst c = Some GET_AMOUNT /\
  user_data (snd c) = user_data w /\
  calls (snd c)
  = (calls w ++ repeat (reply_text not_a_number) (length bads))%list /\
  reads (snd c) = reads w.
Proof.
  intros Hbads c. unfold c. rewrite (retry_run Hbads w). cbn [fst snd].
  split; [reflexivity|]. split; [reflexivity|]. split; [|reflexivity].
  unfold called; cbn [calls]. f_equal.
  clear. induction bads as [|b bads IH]; cbn; [reflexivity|now rewrite IH].
Qed.

Lemma button_step (data : string) (w : world A) :
  always_answers env ->
  pattern data = true ->
  step env (Some START_ROUTES, w) (ButtonPress data)
  = (Some GET_AMOUNT,
     called [query_answer; query_edit_message_text (amount_prompt data) None]
       (with_user_data
          (set_current_transaction (Some (fresh_pending data)) (user_data w))
          w)).
Proof.
  intros Hans Hpat.
  unfold step; cbn [handler_for fst snd]. rewrite Hpat.
  rewrite ask_for_amount_run.
  destruct (Hans (length (calls w))) as (r & ->).
  destruct (Hans (S (length (calls w)))) as (r' & ->).
  reflexivity.
Qed.

Lemma sum_of_snoc (k : kind) (l : list (transaction A)) (t : transaction A)
    (a : A) :
  amount t = Some a ->
  sum_of k (l ++ [t])
  = if kind_eqb (type t) k then add (sum_of k l) a else sum_of k l.
Proof.
  intro Ha. unfold sum_of, of_kind.
  rewrite filter_app; cbn [filter].
  destruct (kind_eqb (type t) k).
  - rewrite map_app, fold_left_app; cbn. now rewrite Ha.
  - now rewrite app_nil_r.
Qed.

(** X10.  A whole dialogue from the main menu on a day already opened,
    every call being answered: a button of the menu, any number of texts
    that are no numbers, a text that [float] converts to [a], and a
    description.  The conversation is back in the main menu, nothing is
    pending, and the list of the day has grown by one transaction: the
    type of the button, the amount [a], the description, the time of the
    commit.  The total of that type has grown by [a], the other total is
    unchanged, and the stored closing balance is computed from them. *)
Theorem dialogue_commits_one_transaction (w : world A) (data : string)
    (bads : list string) (good descr : string) (a : A) :
  always_answers env ->
  pattern data = true ->
  Forall (fun text => float text = (None : option A)) bads ->
  float good = Some a ->
  ledger_ok (user_data w) ->
  new_day (user_data w) (strftime_Ymd (clock env (S (reads w)))) = false ->
  let k := if String.eqb data ADD_INCOME then income else expense in
  let tx := {| type := k; amount := Some a; description := Some descr;
               date := Some (isoformat (clock env (reads w))) |} in
  let old := ledger (user_data w) in
  let c := run env (Some START_ROUTES, w) (dialogue data bads good descr) in
  fst c = Some START_ROUTES /\
  current_transaction (user_data (snd c)) = None /\
  ledger (user_data (snd c)) = (old ++ [tx])%list /\
  sum_of k (ledger (user_data (snd c))) = add (sum_of k old) a /\
  (forall k', k' <> k ->
     sum_of k' (ledger (user_data (snd c))) = sum_of k' old) /\
  balance_end_day (user_data (snd c))
  = Some (sub (add (get_or (balance_start_day (user_data w)) zero)
                   (sum_of income (old ++ [tx])))
              (sum_of expense (old ++ [tx]))) /\
  balance_start_day (user_data (snd c)) = balance_start_day (user_data w).
Proof.
  intros Hans Hpat Hbads Hgood Hw Hday k tx old c.
  set (d1 := set_current_transaction (Some (fresh_pending data)) (user_data w)).
  set (w1 := called [query_answer;
                     query_edit_message_text (amount_prompt data) None]
               (with_user_data d1 w)).
  set (w2 := called (map (fun _ => reply_text not_a_number) bads) w1).
  set (t3 := set_amount a (fresh_pending data)).
  set (w3 := called [reply_text enter_description]
               (with_user_data
                  (set_current_transaction (Some t3) (user_data w2)) w2)).
  set (today_str := strftime_Ymd (clock env (S (reads w)))) in *.
  set (wb := before_new_menu env descr t3 w3).
  assert (Hrun3 : run env (Some START_ROUTES, w)
                    (ButtonPress data :: map TextInput bads
                     ++ [TextInput good])%list
                  = (Some GET_DESCRIPTION, w3)).
  { cbn [run fold_left]. rewrite (@button_step data w Hans Hpat). fold d1 w1.
    change (fold_left (step env) (map TextInput bads ++ [TextInput good])%list
              (Some GET_AMOUNT, w1))
      with (run env (Some GET_AMOUNT, w1)
              (map TextInput bads ++ [TextInput good])%list).
    rewrite run_app, (retry_run Hbads w1). fold w2.
    cbn [run fold_left].
    rewrite (@amount_step A _ env w2 (fresh_pending data) a good Hgood eq_refl).
    destruct (Hans (length (calls w2))) as (r & ->). reflexivity. }
  assert (Hledger : ledger (user_data wb) = (old ++ [tx])%list) by reflexivity.
  assert (Hopen : day_opened today_str (user_data wb) = user_data wb).
  { unfold day_opened.
    replace (new_day (user_data wb) today_str) with false
      by (symmetry; exact Hday).
    reflexivity. }
  assert (Hok : ledger_ok (day_opened today_str (user_data wb))).
  { rewrite Hopen. unfold ledger_ok. rewrite Hledger.
    apply Forall_app; split; [exact Hw|].
    constructor; [|constructor]. unfold has_amount, tx; cbn. discriminate. }
  assert (Hc : exists new,
             c = (Some START_ROUTES,
                  with_user_data
                    (set_message_id (Some new)
                       (set_balance_end_day (Some (closing (user_data wb)))
                          (user_data wb)))
                    (called [bot_send_message
                               (menu_of env
                                  (stats_of (clock env (S (S (reads w))))
                                     (user_data wb)))
                               (Some keyboard)]
                       {| user_data := set_balance_end_day
                                         (Some (closing (user_data wb)))
                                         (user_data wb);
                          calls := calls wb; reads := S (S (reads wb));
                          log := log wb |}))).
  { destruct (Hans (length (calls wb))) as (new & Hnew). exists new.
    unfold c, dialogue.
    change (ButtonPress data :: map TextInput bads
            ++ [TextInput good; TextInput descr])%list
      with (ButtonPress data
            :: map TextInput bads ++ ([TextInput good] ++ [TextInput descr]))%list.
    rewrite app_assoc.
    change (run env (Some START_ROUTES, w)
              ((ButtonPress data :: map TextInput bads ++ [TextInput good])
               ++ [TextInput descr])%list
            = (Some START_ROUTES,
               with_user_data
                 (set_message_id (Some new)
                    (set_balance_end_day (Some (closing (user_data wb)))
                       (user_data wb)))
                 (called [bot_send_message
                            (menu_of env
                               (stats_of (clock env (S (S (reads w))))
                                  (user_data wb)))
                            (Some keyboard)]
                    {| user_data := set_balance_end_day
                                      (Some (closing (user_data wb)))
                                      (user_data wb);
                       calls := calls wb; reads := S (S (reads wb));
                       log := log wb |}))).
    rewrite run_app, Hrun3. cbn [run fold_left].
    unfold step; cbn [handler_for fst snd].
    rewrite (@commit_run A _ env descr t3 w3 eq_refl Hok). fold wb.
    rewrite Hnew. unfold stats_done.
    change (strftime_Ymd (clock env (S (reads w3)))) with today_str.
    rewrite Hopen. reflexivity. }
  destruct Hc as (new & Hc). rewrite Hc; cbn [fst snd].
  assert (Htype : type tx = k) by reflexivity.
  split; [reflexivity|]. split; [reflexivity|].
  split; [exact Hledger|].
  change (ledger (user_data
                    (with_user_data
                       (set_message_id (Some new)
                          (set_balance_end_day (Some (closing (user_data wb)))
                             (user_data wb)))
                       (called [bot_send_message
                                  (menu_of env
                                     (stats_of (clock env (S (S (reads w))))
                                        (user_data wb)))
                                  (Some keyboard)]
                          {| user_data := set_balance_end_day
                                            (Some (closing (user_data wb)))
                                            (user_data wb);
                             calls := calls wb; reads := S (S (reads wb));
                             log := log wb |}))))
    with (ledger (user_data wb)).
  rewrite Hledger.
  split.
  { rewrite (@sum_of_snoc k old tx a eq_refl), Htype.
    destruct k; reflexivity. }
  split.
  { intros k' Hk'. rewrite (@sum_of_snoc k' old tx a eq_refl), Htype.
    destruct k, k'; try reflexivity; contradiction. }
  split; [|reflexivity].
  change (Some (closing (user_data wb))
          = Some (sub (add (get_or (balance_start_day (user_data w)) zero)
                           (sum_of income (old ++ [tx])))
                      (sum_of expense (old ++ [tx])))).
  unfold closing. rewrite Hledger. reflexivity.
Qed.

(** ** The deletion of the old menu *)

Lemma menu_of_mention (env' : environment) (st : stats A) :
  mention_html env' = mention_html env ->
  menu_of env' st = menu_of env st.
Proof.
  intro Hm. unfold menu_of, menu_text, header. now rewrite Hm.
Qed.

(** X11.  At a commit with the menu recorded in message [old], the first
    call deletes that very message, and the answer to that call decides
    one thing only, a line of the log: when the deletion fails, one line
    with the error is logged.  With a Bot API that answers the deletion
    differently and everything else alike, the stage, the dictionary and
    the calls are the same. *)
Theorem delete_answer_only_logged (env' : environment) (w : world A)
    (t : transaction A) (a : A) (text : string) (old : Z) :
  (forall i, clock env' i = clock env i) ->
  mention_html env' = mention_html env ->
  (forall i, i <> length (calls w) -> transport env' i = transport env i) ->
  current_transaction (user_data w) = Some t ->
  amount t = Some a ->
  ledger_ok (user_data w) ->
  message_id (user_data w) = Some old ->
  old <> 0%Z ->
  let c := step env (Some GET_DESCRIPTION, w) (TextInput text) in
  let c' := step env' (Some GET_DESCRIPTION, w) (TextInput text) in
  fst c' = fst c /\
  user_data (snd c') = user_data (snd c) /\
  calls (snd c') = calls (snd c) /\
  (exists rest,
     calls (snd c) = (calls w ++ bot_delete_message old :: rest)%list) /\
  log (snd c)
  = (log w ++ match transport env (length (calls w)) with
              | Done _ => []
              | Failed e =>
                  [("Could not delete old menu message: " ++ e)%string]
              end)%list.
Proof.
  intros Hclock Hmention Htransport Ht Ha Hw Hid Hnz c c'.
  assert (Hamt : has_amount t) by (unfold has_amount; congruence).
  assert (Htruthy : truthy (message_id (user_data w)) = true).
  { rewrite Hid; cbn. destruct (Z.eqb_spec old 0); [contradiction|reflexivity]. }
  assert (Hok : forall e0 : environment,
             ledger_ok
               (day_opened (strftime_Ymd (clock e0 (S (reads w))))
                  (user_data (before_new_menu e0 text t w)))).
  { intro e0. apply ledger_ok_day_opened.
    unfold before_new_menu; cbn [user_data]. now apply ledger_ok_committed. }
  assert (Hlen : length (calls w ++ [bot_delete_message old])
                 = S (length (calls w)))
    by (rewrite length_app; cbn; lia).
  unfold c, c', step; cbn [handler_for fst snd].
  rewrite (commit_run env text w Ht (Hok env)),
    (commit_run env' text w Ht (Hok env')).
  unfold stats_done, before_new_menu, cleanup_calls, cleanup_log.
  cbn [user_data calls reads log].
  rewrite Htruthy, Hid. cbn [get_or].
  pose proof (fun st => @menu_of_mention env' st Hmention) as Hmenu.
  rewrite !Hclock, Hmenu, Hlen.
  rewrite (Htransport (S (length (calls w)))) by lia.
  destruct (transport env (S (length (calls w))));
    cbn [fst snd user_data calls log with_user_data called];
    (split; [reflexivity|]); (split; [reflexivity|]);
    (split; [reflexivity|]);
    (split; [rewrite <- app_assoc; eexists; reflexivity|]);
    reflexivity.
Qed.

(** ** What one update can do to the dictionary *)

(** The four things an update can do to the dictionary of a sound
    conversation: nothing; replace the pending transaction; refresh the
    day; commit the pending transaction and refresh the day.  The last
    two may also record a message id. *)
Lemma step_cases (c : option stage * world A) (ev : event) :
  sound c ->
  let d := user_data (snd c) in
  let w := snd c in
  let c' := step env c ev in
  (user_data (snd c') = d /\ fst c' = fst c)
  \/ (fst c <> None /\
      exists p, user_data (snd c') = set_current_transaction (Some p) d)
  \/ but_message_id
       (refreshed (strftime_Ymd (clock env (reads w))) d)
       (user_data (snd c'))
  \/ (exists text t,
        current_transaction d = Some t /\ has_amount t /\
        but_message_id
          (refreshed (strftime_Ymd (clock env (S (reads w))))
             (committed (clock env (reads w)) text t d))
          (user_data (snd c'))).
Proof.
  destruct c as [conv w]. intros Hs d w0 c'; subst d w0 c'; cbn [fst snd].
  assert (Hl : ledger_ok (user_data w)) by exact (proj1 Hs).
  assert (Hentry :
            forall conv0 : option stage,
              but_message_id
                (refreshed (strftime_Ymd (clock env (reads w))) (user_data w))
                (user_data
                   (snd (match start env (update_of EntryCommand) w with
                         | (Ok s, w') => (Some s, w')
                         | (Raise _, w') => (conv0, w')
                         end)))).
  { intro conv0.
    destruct (start_cases (update_of EntryCommand) w Hl) as [_ Hd].
    destruct (start env (update_of EntryCommand) w) as [[s|e] w'];
      exact Hd. }
  destruct conv as [[| |]|], ev;
    try (left; split; reflexivity);
    try (right; right; left; apply Hentry).
  - (* the menu, a button *)
    unfold step; cbn [handler_for fst snd].
    destruct (pattern data); [|left; split; reflexivity].
    rewrite ask_for_amount_run.
    destruct (transport env (length (calls w)));
      [|left; split; reflexivity].
    right; left. split; [discriminate|].
    exists (fresh_pending data).
    destruct (transport env (S (length (calls w)))); reflexivity.
  - (* the amount *)
    destruct (float text) as [a|] eqn:Hparse.
    + destruct (current_transaction (user_data w)) as [t|] eqn:Ht.
      * rewrite (amount_step env w text Hparse Ht).
        right; left. split; [discriminate|].
        exists (set_amount a t). reflexivity.
      * left. unfold step; cbn [handler_for fst snd].
        rewrite (amount_no_pending_run w text Hparse Ht). split; reflexivity.
    + left. rewrite (retry_step w text Hparse). split; reflexivity.
  - (* the description *)
    destruct (current_transaction (user_data w)) as [t|] eqn:Ht.
    + assert (Hamt : has_amount t) by exact (proj2 Hs eq_refl t Ht).
      set (wb := before_new_menu env text t w).
      set (today_str := strftime_Ymd (clock env (S (reads w)))).
      assert (Hok : ledger_ok (day_opened today_str (user_data wb))).
      { apply ledger_ok_day_opened.
        unfold wb, before_new_menu; cbn [user_data].
        now apply ledger_ok_committed. }
      right; right; right. exists text, t.
      split; [reflexivity|]. split; [exact Hamt|].
      unfold step; cbn [handler_for fst snd].
      rewrite (commit_run env text w Ht Hok). fold wb today_str.
      destruct (transport env (length (calls wb))); cbn [fst snd];
        [right; eexists; reflexivity|left; reflexivity].
    + left. rewrite (save_without_pending w text Ht). split; reflexivity.
Qed.

(** ** The stored closing balance *)

Lemma step_balanced (c : option stage * world A) (ev : event) :
  sound c -> balanced c -> balanced (step env c ev).
Proof.
  intros Hs Hb.
  destruct (step_cases ev Hs)
    as [[Hd Hst]|[(Hconv & p & Hd)|[Hd|(text & t & _ & _ & Hd)]]];
    unfold balanced.
  - rewrite Hd, Hst. exact Hb.
  - intros _. rewrite Hd.
    change (balance_end_day (user_data (snd c))
            = Some (closing (user_data (snd c)))).
    exact (Hb Hconv).
  - intros _. destruct Hd as [->|(id & ->)]; reflexivity.
  - intros _. destruct Hd as [->|(id & ->)]; reflexivity.
Qed.

(** X12.  In a conversation whose transactions carry their amounts, once
    the stored closing balance is the opening balance plus the income
    minus the expenses of the stored list, it is so after every update,
    whatever the Bot API answers and whatever the clock reads; and it is
    so from the first [/start] on. *)
Theorem closing_balance_kept_in_step (c : option stage * world A)
    (evs : list event) :
  sound c ->
  balanced c ->
  let c' := run env c evs in
  fst c' <> None ->
  balance_end_day (user_data (snd c'))
  = Some (sub (add (get_or (balance_start_day (user_data (snd c'))) zero)
                   (sum_of income (ledger (user_data (snd c')))))
              (sum_of expense (ledger (user_data (snd c'))))).
Proof.
  revert c. induction evs as [|ev evs IH]; intros c Hs Hb.
  - exact Hb.
  - cbn [run fold_left].
    exact (IH (step env c ev) (step_sound ev Hs) (step_balanced ev Hs Hb)).
Qed.

(** ** Within one day *)

Lemma day_opened_same (today_str : string) (d : dict A) :
  last_update d = Some today_str -> day_opened today_str d = d.
Proof.
  intro Hd. unfold day_opened, new_day. rewrite Hd.
  now rewrite String.eqb_refl.
Qed.

Lemma step_appends (today_str : string) (c : option stage * world A)
    (ev : event) :
  sound c ->
  all_day env today_str ->
  last_update (user_data (snd c)) = Some today_str ->
  let d := user_data (snd c) in
  let d' := user_data (snd (step env c ev)) in
  last_update d' = Some today_str /\
  balance_start_day d' = balance_start_day d /\
  exists more,
    ledger d' = (ledger d ++ more)%list /\
    (length more <= 1)%nat /\
    Forall complete more.
Proof.
  intros Hs Hday Hlast d d'.
  assert (Hnil : ledger d = (ledger d ++ [])%list) by now rewrite app_nil_r.
  destruct (step_cases ev Hs)
    as [[Hd _]|[(_ & p & Hd)|[Hd|(text & t & _ & Hamt & Hd)]]];
    fold d d' in Hd.
  - rewrite Hd. split; [exact Hlast|]. split; [reflexivity|].
    exists []. split; [exact Hnil|]. split; [cbn; lia|constructor].
  - rewrite Hd. split; [exact Hlast|]. split; [reflexivity|].
    exists []. split; [exact Hnil|]. split; [cbn; lia|constructor].
  - unfold refreshed in Hd. rewrite Hday, (day_opened_same d Hlast) in Hd.
    destruct Hd as [->|(id & ->)];
      (split; [exact Hlast|]); (split; [reflexivity|]);
      exists []; (split; [exact Hnil|]); (split; [cbn; lia|constructor]).
  - unfold refreshed in Hd. rewrite Hday in Hd.
    rewrite (@day_opened_same today_str
               (committed (clock env (reads (snd c))) text t d) Hlast) in Hd.
    destruct Hd as [->|(id & ->)];
      (split; [exact Hlast|]); (split; [reflexivity|]);
      exists [set_date (isoformat (clock env (reads (snd c))))
                (set_description text t)];
      (split; [reflexivity|]); (split; [cbn; lia|]);
      (constructor; [|constructor]);
      (split; [exact Hamt|split; discriminate]).
Qed.

(** X13.  While every clock read falls on the day of ['last_update'],
    the list of the day only grows at its end: no update removes or
    changes a stored transaction, the opening balance does not move, each
    update adds at most one transaction, and every transaction added
    carries an amount, a description and a date (so the default label of
    the menu is never used for it). *)
Theorem ledger_append_only_within_a_day (today_str : string)
    (c : option stage * world A) (evs : list event) :
  sound c ->
  all_day env today_str ->
  last_update (user_data (snd c)) = Some today_str ->
  let d := user_data (snd c) in
  let d' := user_data (snd (run env c evs)) in
  last_update d' = Some today_str /\
  balance_start_day d' = balance_start_day d /\
  exists more,
    ledger d' = (ledger d ++ more)%list /\
    (length more <= length evs)%nat /\
    Forall (fun t => amount t <> None /\ description t <> None
                     /\ date t <> None) more.
Proof.
  revert c. induction evs as [|ev evs IH]; intros c Hs Hday Hlast.
  - cbn [run fold_left snd]. split; [exact Hlast|]. split; [reflexivity|].
    exists []. rewrite app_nil_r. split; [reflexivity|].
    split; [cbn; lia|constructor].
  - cbn [run fold_left].
    destruct (step_appends ev Hs Hday Hlast)
      as (Hlast1 & Hstart1 & more1 & Hledger1 & Hlen1 & Hall1).
    destruct (IH (step env c ev) (step_sound ev Hs) Hday Hlast1)
      as (Hlast2 & Hstart2 & more2 & Hledger2 & Hlen2 & Hall2).
    split; [exact Hlast2|]. split; [exact (eq_trans Hstart2 Hstart1)|].
    exists (more1 ++ more2)%list.
    split; [exact (eq_trans Hledger2
                     (eq_trans (f_equal (fun l => (l ++ more2)%list) Hledger1)
                        (eq_sym (app_assoc _ _ _))))|].
    split; [rewrite length_app; cbn [length]; lia|].
    apply Forall_app; split; assumption.
Qed.

End Conversation.

(** * The further properties at work on concrete days *)

(** [unhandled_updates_ignored]: a text in the main menu. *)
Lemma unhandled_updates_ignored_witness :
  ((Some START_ROUTES = (None : option stage)
    /\ TextInput "hello" <> EntryCommand) \/
   (Some START_ROUTES = Some START_ROUTES
    /\ exists text, TextInput "hello" = TextInput text) \/
   (Some START_ROUTES = Some START_ROUTES /\
    exists data, TextInput "hello" = ButtonPress data
                 /\ pattern data = false) \/
   ((Some START_ROUTES = Some GET_AMOUNT
     \/ Some START_ROUTES = Some GET_DESCRIPTION) /\
    exists data, TextInput "hello" = ButtonPress data)) /\
  step Scenario.quiet (Some START_ROUTES, Scenario.today_open)
    (TextInput "hello")
  = (Some START_ROUTES, Scenario.today_open).
Proof.
  assert (H1 : (Some START_ROUTES = (None : option stage)
                /\ TextInput "hello" <> EntryCommand) \/
               (Some START_ROUTES = Some START_ROUTES
                /\ exists text, TextInput "hello" = TextInput text) \/
               (Some START_ROUTES = Some START_ROUTES /\
                exists data, TextInput "hello" = ButtonPress data
                             /\ pattern data = false) \/
               ((Some START_ROUTES = Some GET_AMOUNT
                 \/ Some START_ROUTES = Some GET_DESCRIPTION) /\
                exists data, TextInput "hello" = ButtonPress data))
    by (right; left; split; [reflexivity|eexists; reflexivity]).
  split; [exact H1|].
  exact (@unhandled_updates_ignored Z Cents.cents Scenario.quiet
           (Some START_ROUTES) Scenario.today_open (TextInput "hello") H1).
Defined.

(** [button_starts_fresh_pending]: the expense button replaces a pending
    salary. *)
Lemma button_starts_fresh_pending_witness :
  pattern ADD_EXPENSE = true /\
  current_transaction (user_data Scenario.stale_pending)
  = Some Scenario.pending_salary /\
  fst (step Scenario.quiet (Some START_ROUTES, Scenario.stale_pending)
         (ButtonPress ADD_EXPENSE))
  = Some GET_AMOUNT /\
  current_transaction
    (user_data
       (snd (step Scenario.quiet (Some START_ROUTES, Scenario.stale_pending)
               (ButtonPress ADD_EXPENSE))))
  = Some {| type := expense; amount := None; description := None;
            date := None |} /\
  ledger
    (user_data
       (snd (step Scenario.quiet (Some START_ROUTES, Scenario.stale_pending)
               (ButtonPress ADD_EXPENSE))))
  = [Scenario.lunch].
Proof.
  assert (H1 : pattern ADD_EXPENSE = true) by reflexivity.
  split; [exact H1|]. split; [reflexivity|].
  destruct (@button_starts_fresh_pending Z Cents.cents Scenario.quiet
              ADD_EXPENSE Scenario.stale_pending H1)
    as (Hok & _ & Hledger & _).
  destruct (Hok 100%Z eq_refl) as (Hdata & Hboth).
  destruct (Hboth 101%Z eq_refl) as (Hstage & _).
  split; [exact Hstage|].
  split; [rewrite Hdata; reflexivity|].
  rewrite Hledger. reflexivity.
Defined.

(** [amount_without_pending]: a number typed when nothing is pending. *)
Lemma amount_without_pending_witness :
  float "150" = Some 15000%Z /\
  current_transaction (user_data Scenario.today_open) = None /\
  step Scenario.quiet (Some GET_AMOUNT, Scenario.today_open) (TextInput "150")
  = (Some GET_AMOUNT, Scenario.today_open).
Proof.
  assert (H1 : float "150" = Some 15000%Z) by reflexivity.
  assert (H2 : current_transaction (user_data Scenario.today_open) = None)
    by reflexivity.
  split; [exact H1|]. split; [exact H2|].
  exact (proj2 (@amount_without_pending Z Cents.cents Scenario.quiet
                  Scenario.today_open "150" 15000%Z H1 H2)).
Defined.

Lemma fresh_sound : sound (None : option stage, Scenario.fresh).
Proof.
  split; cbn [fst snd].
  - constructor.
  - intro Hc; discriminate.
Qed.

(** [conversation_keeps_amounts]: the dialogue that enters [-5], from a
    new user. *)
Lemma conversation_keeps_amounts_witness :
  sound (None : option stage, Scenario.fresh) /\
  sound (run Scenario.quiet (None, Scenario.fresh) Scenario.refund_dialogue) /\
  exists st w',
    get_user_stats Scenario.quiet
      (snd (run Scenario.quiet (None, Scenario.fresh)
              Scenario.refund_dialogue))
    = (Ok st, w').
Proof.
  split; [exact fresh_sound|].
  exact (@conversation_keeps_amounts Z Cents.cents Scenario.quiet
           (None, Scenario.fresh) Scenario.refund_dialogue fresh_sound).
Defined.

(** [stats_raise_on_missing_amount]: the menu of a day with a stored
    transaction that has no amount. *)
Lemma stats_raise_on_missing_amount_witness :
  new_day (user_data Scenario.no_amount_stored)
    (strftime_Ymd (clock Scenario.quiet (reads Scenario.no_amount_stored)))
  = false /\
  Exists (fun t => amount t = None)
    (ledger (user_data Scenario.no_amount_stored)) /\
  step Scenario.quiet (Some START_ROUTES, Scenario.no_amount_stored)
    EntryCommand
  = (Some START_ROUTES, one_read Scenario.no_amount_stored).
Proof.
  assert (H1 : new_day (user_data Scenario.no_amount_stored)
                 (strftime_Ymd
                    (clock Scenario.quiet (reads Scenario.no_amount_stored)))
               = false) by reflexivity.
  assert (H2 : Exists (fun t => amount t = None)
                 (ledger (user_data Scenario.no_amount_stored)))
    by (constructor 2; constructor; reflexivity).
  split; [exact H1|]. split; [exact H2|].
  destruct (@stats_raise_on_missing_amount Z Cents.cents Scenario.quiet
              (Some START_ROUTES) Scenario.no_amount_stored H1 H2)
    as (_ & _ & _ & Hstep).
  exact Hstep.
Defined.

(** [closing_balance_carried_forward]: 37.50 at the close of 7 March is
    the opening balance of 8 March. *)
Lemma closing_balance_carried_forward_witness :
  ledger_ok (user_data Scenario.today_open) /\
  exists st1 w1 st2 w2,
    get_user_stats Scenario.two_days Scenario.today_open = (Ok st1, w1) /\
    get_user_stats Scenario.two_days w1 = (Ok st2, w2) /\
    balance_end st1 = 3750%Z /\
    balance_start st2 = balance_end st1 /\
    transactions st2 = [].
Proof.
  split; [exact today_open_ok|].
  destruct (@closing_balance_carried_forward Z Cents.cents Scenario.two_days
              Scenario.today_open today_open_ok)
    as (st1 & w1 & Hrun & Hnext).
  assert (Hshape : (Ok st1, w1)
                   = get_user_stats Scenario.two_days Scenario.today_open)
    by (symmetry; exact Hrun).
  vm_compute in Hshape. injection Hshape as Hst Hw.
  destruct Hnext as (st2 & w2 & Hrun2 & Hstart & Hempty & _).
  { rewrite Hw. vm_compute. discriminate. }
  exists st1, w1, st2, w2.
  split; [exact Hrun|]. split; [exact Hrun2|].
  split; [rewrite Hst; reflexivity|]. split; assumption.
Defined.

(** [start_keeps_the_books]: [/start] while a description is awaited. *)
Lemma start_keeps_the_books_witness :
  ledger_ok (user_data Scenario.stale_pending) /\
  new_day (user_data Scenario.stale_pending)
    (strftime_Ymd (clock Scenario.quiet (reads Scenario.stale_pending)))
  = false /\
  ledger
    (user_data
       (snd (step Scenario.quiet (Some GET_DESCRIPTION, Scenario.stale_pending)
               EntryCommand)))
  = [Scenario.lunch] /\
  current_transaction
    (user_data
       (snd (step Scenario.quiet (Some GET_DESCRIPTION, Scenario.stale_pending)
               EntryCommand)))
  = Some Scenario.pending_salary /\
  balance_end_day
    (user_data
       (snd (step Scenario.quiet (Some GET_DESCRIPTION, Scenario.stale_pending)
               EntryCommand)))
  = Some 3750%Z.
Proof.
  assert (H1 : ledger_ok (user_data Scenario.stale_pending))
    by exact today_open_ok.
  assert (H2 : new_day (user_data Scenario.stale_pending)
                 (strftime_Ymd
                    (clock Scenario.quiet (reads Scenario.stale_pending)))
               = false) by reflexivity.
  split; [exact H1|]. split; [exact H2|].
  destruct (@start_keeps_the_books Z Cents.cents Scenario.quiet
              (Some GET_DESCRIPTION) Scenario.stale_pending H1 H2)
    as (_ & Hledger & Hpending & _ & _ & Hend).
  split; [rewrite Hledger; reflexivity|].
  split; [rewrite Hpending; reflexivity|].
  rewrite Hend. reflexivity.
Defined.

(** [commit_with_failed_send]: the salary is committed, the send of the
    menu (call number 5) fails, and the next text is lost. *)
Lemma commit_with_failed_send_witness :
  current_transaction (user_data Scenario.awaiting_description)
  = Some Scenario.pending_salary /\
  amount Scenario.pending_salary = Some 15000%Z /\
  ledger_ok (user_data Scenario.awaiting_description) /\
  new_day (user_data Scenario.awaiting_description)
    (strftime_Ymd
       (clock (Scenario.fails_at 5) (S (reads Scenario.awaiting_description))))
  = false /\
  transport (Scenario.fails_at 5)
    (length (calls (before_new_menu (Scenario.fails_at 5) "salary"
                      Scenario.pending_salary Scenario.awaiting_description)))
  = Failed "Timed out" /\
  fst (step (Scenario.fails_at 5)
         (Some GET_DESCRIPTION, Scenario.awaiting_description)
         (TextInput "salary"))
  = Some GET_DESCRIPTION /\
  balance_end_day
    (user_data
       (snd (step (Scenario.fails_at 5)
               (Some GET_DESCRIPTION, Scenario.awaiting_description)
               (TextInput "salary"))))
  = Some 15000%Z /\
  step (Scenario.fails_at 5)
    (step (Scenario.fails_at 5)
       (Some GET_DESCRIPTION, Scenario.awaiting_description)
       (TextInput "salary"))
    (TextInput "bonus")
  = step (Scenario.fails_at 5)
      (Some GET_DESCRIPTION, Scenario.awaiting_description)
      (TextInput "salary").
Proof.
  assert (H1 : current_transaction (user_data Scenario.awaiting_description)
               = Some Scenario.pending_salary) by (vm_compute; reflexivity).
  assert (H2 : amount Scenario.pending_salary = Some 15000%Z) by reflexivity.
  assert (H3 : ledger_ok (user_data Scenario.awaiting_description))
    by (vm_compute; constructor).
  assert (H4 : new_day (user_data Scenario.awaiting_description)
                 (strftime_Ymd
                    (clock (Scenario.fails_at 5)
                       (S (reads Scenario.awaiting_description))))
               = false) by (vm_compute; reflexivity).
  assert (H5 : transport (Scenario.fails_at 5)
                 (length (calls (before_new_menu (Scenario.fails_at 5) "salary"
                                   Scenario.pending_salary
                                   Scenario.awaiting_description)))
               = Failed "Timed out") by (vm_compute; reflexivity).
  do 5 (split; [assumption|]).
  destruct (@commit_with_failed_send Z Cents.cents (Scenario.fails_at 5)
              Scenario.awaiting_description Scenario.pending_salary 15000%Z
              "salary" "Timed out" H1 H2 H3 H4 H5)
    as (Hstage & _ & Hend & _ & _ & Hstuck).
  split; [exact Hstage|].
  split; [rewrite Hend; vm_compute; reflexivity|].
  exact (Hstuck "bonus").
Defined.

(** [retry_any_number_of_times]: two texts that are no numbers. *)
Lemma retry_any_number_of_times_witness :
  Forall (fun text => float text = (None : option Z)) ["abc"; "12,5"] /\
  fst (run Scenario.quiet (Some GET_AMOUNT, Scenario.awaiting_amount)
         (map TextInput ["abc"; "12,5"]))
  = Some GET_AMOUNT /\
  user_data
    (snd (run Scenario.quiet (Some GET_AMOUNT, Scenario.awaiting_amount)
            (map TextInput ["abc"; "12,5"])))
  = user_data Scenario.awaiting_amount.
Proof.
  assert (H1 : Forall (fun text => float text = (None : option Z))
                 ["abc"; "12,5"])
    by (repeat constructor).
  split; [exact H1|].
  destruct (@retry_any_number_of_times Z Cents.cents Scenario.quiet
              ["abc"; "12,5"] Scenario.awaiting_amount H1)
    as (Hstage & Hdata & _).
  split; assumption.
Defined.

Lemma quiet_always_answers : always_answers Scenario.quiet.
Proof. intro n. eexists. reflexivity. Qed.

(** [dialogue_commits_one_transaction]: a taxi of 12.50 entered at the
    second try on the open day. *)
Lemma dialogue_commits_one_transaction_witness :
  always_answers Scenario.quiet /\
  pattern ADD_EXPENSE = true /\
  Forall (fun text => float text = (None : option Z)) ["abc"] /\
  float "12.5" = Some 1250%Z /\
  ledger_ok (user_data Scenario.today_open) /\
  new_day (user_data Scenario.today_open)
    (strftime_Ymd (clock Scenario.quiet (S (reads Scenario.today_open))))
  = false /\
  fst (run Scenario.quiet (Some START_ROUTES, Scenario.today_open)
         Scenario.taxi_dialogue)
  = Some START_ROUTES /\
  ledger
    (user_data
       (snd (run Scenario.quiet (Some START_ROUTES, Scenario.today_open)
               Scenario.taxi_dialogue)))
  = [Scenario.lunch; Scenario.taxi] /\
  balance_end_day
    (user_data
       (snd (run Scenario.quiet (Some START_ROUTES, Scenario.today_open)
               Scenario.taxi_dialogue)))
  = Some 2500%Z.
Proof.
  assert (H1 : always_answers Scenario.quiet) by exact quiet_always_answers.
  assert (H2 : pattern ADD_EXPENSE = true) by reflexivity.
  assert (H3 : Forall (fun text => float text = (None : option Z)) ["abc"])
    by (repeat constructor).
  assert (H4 : float "12.5" = Some 1250%Z) by reflexivity.
  assert (H5 : ledger_ok (user_data Scenario.today_open))
    by exact today_open_ok.
  assert (H6 : new_day (user_data Scenario.today_open)
                 (strftime_Ymd
                    (clock Scenario.quiet (S (reads Scenario.today_open))))
               = false) by reflexivity.
  do 6 (split; [assumption|]).
  destruct (@dialogue_commits_one_transaction Z Cents.cents Scenario.quiet
              Scenario.today_open ADD_EXPENSE ["abc"] "12.5" "taxi" 1250%Z
              H1 H2 H3 H4 H5 H6)
    as (Hstage & _ & Hledger & _ & _ & Hend & _).
  split; [exact Hstage|].
  split; [exact Hledger|].
  unfold Scenario.taxi_dialogue. rewrite Hend. reflexivity.
Defined.

(** [delete_answer_only_logged]: the deletion of the old menu (call number
    4) fails; but for one line of the log the commit is the one of the
    quiet day. *)
Lemma delete_answer_only_logged_witness :
  (forall i, clock Scenario.quiet i = clock (Scenario.fails_at 4) i) /\
  mention_html Scenario.quiet = mention_html (Scenario.fails_at 4) /\
  (forall i, i <> length (calls Scenario.awaiting_description) ->
             transport Scenario.quiet i = transport (Scenario.fails_at 4) i) /\
  current_transaction (user_data Scenario.awaiting_description)
  = Some Scenario.pending_salary /\
  amount Scenario.pending_salary = Some 15000%Z /\
  ledger_ok (user_data Scenario.awaiting_description) /\
  message_id (user_data Scenario.awaiting_description) = Some 100%Z /\
  100%Z <> 0%Z /\
  user_data
    (snd (step Scenario.quiet
            (Some GET_DESCRIPTION, Scenario.awaiting_description)
            (TextInput "salary")))
  = user_data
      (snd (step (Scenario.fails_at 4)
              (Some GET_DESCRIPTION, Scenario.awaiting_description)
              (TextInput "salary"))) /\
  log (snd (step (Scenario.fails_at 4)
              (Some GET_DESCRIPTION, Scenario.awaiting_description)
              (TextInput "salary")))
  = ["Could not delete old menu message: Timed out"].
Proof.
  assert (H1 : forall i, clock Scenario.quiet i
                         = clock (Scenario.fails_at 4) i)
    by (intro i; reflexivity).
  assert (H2 : mention_html Scenario.quiet
               = mention_html (Scenario.fails_at 4)) by reflexivity.
  assert (H3 : forall i, i <> length (calls Scenario.awaiting_description) ->
                 transport Scenario.quiet i
                 = transport (Scenario.fails_at 4) i).
  { intros i Hi. vm_compute in Hi. cbn [transport Scenario.quiet Scenario.fails_at].
    destruct (Nat.eqb_spec i 4); [contradiction|reflexivity]. }
  assert (H4 : current_transaction (user_data Scenario.awaiting_description)
               = Some Scenario.pending_salary) by (vm_compute; reflexivity).
  assert (H5 : amount Scenario.pending_salary = Some 15000%Z) by reflexivity.
  assert (H6 : ledger_ok (user_data Scenario.awaiting_description))
    by (vm_compute; constructor).
  assert (H7 : message_id (user_data Scenario.awaiting_description)
               = Some 100%Z) by (vm_compute; reflexivity).
  assert (H8 : 100%Z <> 0%Z) by discriminate.
  do 8 (split; [assumption|]).
  destruct (@delete_answer_only_logged Z Cents.cents (Scenario.fails_at 4)
              Scenario.quiet Scenario.awaiting_description
              Scenario.pending_salary 15000%Z "salary" 100%Z
              H1 H2 H3 H4 H5 H6 H7 H8)
    as (_ & Hdata & _ & _ & Hlog).
  split; [exact Hdata|].
  rewrite Hlog. vm_compute. reflexivity.
Defined.

Lemma fresh_balanced : balanced (None : option stage, Scenario.fresh).
Proof. intro Hc. cbn in Hc. contradiction. Qed.

(** [closing_balance_kept_in_step]: after the dialogue that enters [-5],
    from a new user. *)
Lemma closing_balance_kept_in_step_witness :
  sound (None : option stage, Scenario.fresh) /\
  balanced (None : option stage, Scenario.fresh) /\
  fst (run Scenario.quiet (None, Scenario.fresh) Scenario.refund_dialogue)
  <> None /\
  balance_end_day
    (user_data
       (snd (run Scenario.quiet (None, Scenario.fresh)
               Scenario.refund_dialogue)))
  = Some (-500)%Z.
Proof.
  assert (H3 : fst (run Scenario.quiet (None, Scenario.fresh)
                      Scenario.refund_dialogue) <> None)
    by (vm_compute; discriminate).
  split; [exact fresh_sound|]. split; [exact fresh_balanced|].
  split; [exact H3|].
  rewrite (@closing_balance_kept_in_step Z Cents.cents Scenario.quiet
             (None, Scenario.fresh) Scenario.refund_dialogue
             fresh_sound fresh_balanced H3).
  vm_compute. reflexivity.
Defined.

Lemma today_open_sound : sound (Some START_ROUTES, Scenario.today_open).
Proof.
  split; cbn [fst snd].
  - exact today_open_ok.
  - intro Hc; discriminate.
Qed.

(** [ledger_append_only_within_a_day]: the taxi dialogue on the open day
    keeps the lunch and adds one transaction. *)
Lemma ledger_append_only_within_a_day_witness :
  sound (Some START_ROUTES, Scenario.today_open) /\
  all_day Scenario.quiet "2026-03-07" /\
  last_update (user_data Scenario.today_open) = Some "2026-03-07" /\
  balance_start_day
    (user_data
       (snd (run Scenario.quiet (Some START_ROUTES, Scenario.today_open)
               Scenario.taxi_dialogue)))
  = Some 5000%Z /\
  exists more,
    ledger
      (user_data
         (snd (run Scenario.quiet (Some START_ROUTES, Scenario.today_open)
                 Scenario.taxi_dialogue)))
    = (Scenario.lunch :: more)%list /\
    (length more <= 4)%nat.
Proof.
  assert (H2 : all_day Scenario.quiet "2026-03-07")
    by (intro i; reflexivity).
  assert (H3 : last_update (user_data Scenario.today_open)
               = Some "2026-03-07") by reflexivity.
  split; [exact today_open_sound|]. split; [exact H2|]. split; [exact H3|].
  destruct (@ledger_append_only_within_a_day Z Cents.cents Scenario.quiet
              "2026-03-07" (Some START_ROUTES, Scenario.today_open)
              Scenario.taxi_dialogue today_open_sound H2 H3)
    as (_ & Hstart & more & Hledger & Hlen & _).
  split; [exact Hstart|].
  exists more. split; [exact Hledger|exact Hlen].
Defined.
